(** * fprintd: the per-device session and operation state machine

    A shallow embedding of the daemon's C sources: [src/device.c] (claim
    state, verify/identify/enroll pipeline, deletion, on-device garbage
    collection), [src/manager.c] (device lookup) and [src/file_storage.c]
    (the built-in template store).

    Conventions.
    - A C function that mutates the device becomes a computation in the
      monad [M]: it threads the [World], aborts ([Abort]) where the C code
      hits a failed [g_assert] or dereferences a NULL session, and blocks
      ([Blocked]) where the main loop waits for an event that never comes.
    - Everything the daemon sends out (bus replies, signals, calls into the
      driver, timers it arms, warnings) is appended to the world's
      chronological [out] log.
    - libfprint and GLib are external: their objects are records holding
      what the daemon reads from them; the store's dispatch table
      ([storage.h]) and the libfprint functions the daemon treats as opaque
      are type classes.
    - Time is the order of the main loop's events: a timer is the source it
      was armed as, with its interval, and the event of its expiry. *)

From Stdlib Require Import ZArith Lia Bool Ascii String.
From stdpp Require Import base option list strings pretty gmap.

Local Open Scope string_scope.

(** ** GLib and libfprint vocabulary *)

(** [g_str_equal] on two non-NULL C strings. *)
Definition g_str_equal (a b : string) : bool := String.eqb a b.

(** [g_strcmp0 (a, b) == 0]: NULL-safe comparison (two NULLs are equal). *)
Definition g_strcmp0_eq (a b : option string) : bool :=
  match a, b with
  | None, None => true
  | Some x, Some y => String.eqb x y
  | _, _ => false
  end.

(** [FpFinger] is a C enum: [FP_FINGER_UNKNOWN = 0], then the ten slots. *)
Definition FpFinger := nat.

Definition FP_FINGER_UNKNOWN : FpFinger := 0.
Definition FP_FINGER_LEFT_THUMB : FpFinger := 1.
Definition FP_FINGER_LEFT_INDEX : FpFinger := 2.
Definition FP_FINGER_LEFT_MIDDLE : FpFinger := 3.
Definition FP_FINGER_LEFT_RING : FpFinger := 4.
Definition FP_FINGER_LEFT_LITTLE : FpFinger := 5.
Definition FP_FINGER_RIGHT_THUMB : FpFinger := 6.
Definition FP_FINGER_RIGHT_INDEX : FpFinger := 7.
Definition FP_FINGER_RIGHT_MIDDLE : FpFinger := 8.
Definition FP_FINGER_RIGHT_RING : FpFinger := 9.
Definition FP_FINGER_RIGHT_LITTLE : FpFinger := 10.
Definition FP_FINGER_FIRST : FpFinger := FP_FINGER_LEFT_THUMB.
Definition FP_FINGER_LAST : FpFinger := FP_FINGER_RIGHT_LITTLE.

Definition FP_FINGER_IS_VALID (finger : nat) : bool :=
  Nat.leb FP_FINGER_FIRST finger && Nat.leb finger FP_FINGER_LAST.

(** A [GDate]: the daemon only asks whether it is valid and for its Julian
    day (a [guint32]). *)
Record GDate := { g_date_valid : bool; g_date_get_julian : Z }.

(** What the daemon reads from an [FpPrint]. [print_data] stands for the
    opaque template. *)
Record FpPrint := {
  fp_print_get_driver : string;
  fp_print_get_device_id : string;
  fp_print_get_username : option string;
  fp_print_get_finger : FpFinger;
  fp_print_get_enroll_date : option GDate;
  fp_print_get_device_stored : bool;
  print_data : list nat
}.

(** Error domains and codes of a [GError], as far as the daemon tells them
    apart. *)
Inductive FpDeviceRetry :=
| FP_DEVICE_RETRY_GENERAL
| FP_DEVICE_RETRY_TOO_SHORT
| FP_DEVICE_RETRY_CENTER_FINGER
| FP_DEVICE_RETRY_REMOVE_FINGER.

Inductive FpDeviceError :=
| FP_DEVICE_ERROR_GENERAL
| FP_DEVICE_ERROR_NOT_SUPPORTED
| FP_DEVICE_ERROR_NOT_OPEN
| FP_DEVICE_ERROR_ALREADY_OPEN
| FP_DEVICE_ERROR_BUSY
| FP_DEVICE_ERROR_PROTO
| FP_DEVICE_ERROR_DATA_INVALID
| FP_DEVICE_ERROR_DATA_NOT_FOUND
| FP_DEVICE_ERROR_DATA_FULL
| FP_DEVICE_ERROR_DATA_DUPLICATE.

Inductive GIOErrorEnum :=
| G_IO_ERROR_FAILED
| G_IO_ERROR_CANCELLED.

Inductive GError :=
| FP_DEVICE_RETRY (code : FpDeviceRetry)
| FP_DEVICE_ERROR (code : FpDeviceError)
| G_IO_ERROR (code : GIOErrorEnum).

Definition is_retry (error : option GError) : bool :=
  match error with Some (FP_DEVICE_RETRY _) => true | _ => false end.

Definition is_cancelled (error : option GError) : bool :=
  match error with Some (G_IO_ERROR G_IO_ERROR_CANCELLED) => true | _ => false end.

Definition is_data_not_found (error : option GError) : bool :=
  match error with
  | Some (FP_DEVICE_ERROR FP_DEVICE_ERROR_DATA_NOT_FOUND) => true
  | _ => false
  end.

Definition is_data_full (error : option GError) : bool :=
  match error with
  | Some (FP_DEVICE_ERROR FP_DEVICE_ERROR_DATA_FULL) => true
  | _ => false
  end.

(** [FprintError] of fprintd.h. *)
Inductive FprintError :=
| FPRINT_ERROR_CLAIM_DEVICE
| FPRINT_ERROR_ALREADY_IN_USE
| FPRINT_ERROR_INTERNAL
| FPRINT_ERROR_PERMISSION_DENIED
| FPRINT_ERROR_NO_ENROLLED_PRINTS
| FPRINT_ERROR_FINGER_ALREADY_ENROLLED
| FPRINT_ERROR_NO_ACTION_IN_PROGRESS
| FPRINT_ERROR_INVALID_FINGERNAME
| FPRINT_ERROR_NO_SUCH_DEVICE
| FPRINT_ERROR_PRINTS_NOT_DELETED
| FPRINT_ERROR_PRINTS_NOT_DELETED_FROM_DEVICE.

#[global] Instance FprintError_eq_dec : EqDecision FprintError.
Proof. solve_decision. Defined.

(** ** device.c: finger names *)

Definition FINGERS_NAMES : list string :=
  [ "unknown";
    "left-thumb"; "left-index-finger"; "left-middle-finger";
    "left-ring-finger"; "left-little-finger";
    "right-thumb"; "right-index-finger"; "right-middle-finger";
    "right-ring-finger"; "right-little-finger" ].

(** Returns NULL ([None]) for a value outside the enum. *)
Definition fp_finger_to_name (finger : FpFinger) : option string :=
  if Nat.eqb finger FP_FINGER_UNKNOWN then Some "any"
  else if negb (FP_FINGER_IS_VALID finger) then None
  else FINGERS_NAMES !! finger.

(** The [for] loop of [finger_name_to_fp_finger], from slot [i] through the
    [n] slots that remain up to [FP_FINGER_LAST]. *)
Fixpoint finger_name_scan (finger_name : string) (i n : nat) : FpFinger :=
  match n with
  | O => FP_FINGER_UNKNOWN       (* "Invalid, let's try that" *)
  | S n' =>
      match FINGERS_NAMES !! i with
      | Some name =>
          if g_str_equal finger_name name then i
          else finger_name_scan finger_name (S i) n'
      | None => finger_name_scan finger_name (S i) n'
      end
  end.

Definition finger_name_to_fp_finger (finger_name : option string) : FpFinger :=
  match finger_name with
  | None => FP_FINGER_UNKNOWN
  | Some name =>
      if g_str_equal name "" || g_str_equal name "any" then FP_FINGER_UNKNOWN
      else finger_name_scan name FP_FINGER_FIRST (S FP_FINGER_LAST - FP_FINGER_FIRST)
  end.

(** The libfprint device behind [priv->dev]: what identifies it and the
    features [fp_device_has_feature] reports. *)
Record FpDevice := {
  fp_device_get_driver : string;
  fp_device_get_device_id : string;
  FP_DEVICE_FEATURE_IDENTIFY : bool;
  FP_DEVICE_FEATURE_STORAGE : bool;
  FP_DEVICE_FEATURE_STORAGE_LIST : bool
}.

(** The driver's side of that device: whether it is open, the prints it
    holds, and how it answers the synchronous calls the daemon makes. *)
Record FpDeviceState := {
  fp_device_is_open : bool;
  device_prints : list FpPrint;        (* prints resident on the device *)
  list_prints_ok : bool;               (* does fp_device_list_prints_sync succeed *)
  delete_print_ok : FpPrint -> bool;   (* does fp_device_delete_print_sync succeed *)
  clear_storage_ok : bool              (* does fp_device_clear_storage_sync succeed *)
}.

(** ** storage.h: the store's dispatch table

    [S] is whatever state lies behind the store (for the built-in backend,
    the file system). An [int] result is 0 on success. [print_data_load]
    fills its out-parameter only when it has a print. A [const char *]
    user name may be NULL. *)
Class fp_storage (S : Type) := {
  print_data_save : FpPrint -> S -> Z * S;
  print_data_load : FpDevice -> FpFinger -> option string -> S -> Z * option FpPrint;
  print_data_delete : FpDevice -> FpFinger -> option string -> S -> Z * S;
  discover_prints : FpDevice -> option string -> S -> list FpFinger;
  discover_users : S -> list string
}.

(** What the daemon calls in libfprint on prints: their comparison
    ("equality is driver-defined"), whether a print can be used with a
    device, and the (de)serialization of a print; NULL results are [None]. *)
Class Libfprint := {
  fp_print_equal : FpPrint -> FpPrint -> bool;
  fp_print_compatible : FpPrint -> FpDevice -> bool;
  fp_print_serialize : FpPrint -> option string;
  fp_print_deserialize : string -> option FpPrint
}.

(** ** device.c: data *)

Inductive FprintDeviceAction :=
| ACTION_NONE
| ACTION_IDENTIFY
| ACTION_VERIFY
| ACTION_ENROLL
| ACTION_OPEN
| ACTION_CLOSE
| ACTION_DELETE.

Inductive FprintDeviceClaimState :=
| STATE_CLAIMED
| STATE_UNCLAIMED
| STATE_AUTO_CLAIM
| STATE_ANYTIME.

#[global] Instance FprintDeviceAction_eq_dec : EqDecision FprintDeviceAction.
Proof. solve_decision. Defined.

#[global] Instance FprintDeviceClaimState_eq_dec : EqDecision FprintDeviceClaimState.
Proof. solve_decision. Defined.

(** A bus method call: the method, the caller's bus name, and the user the
    authorization handler attached to it (qdata "authorized-user"). *)
Record GDBusMethodInvocation := {
  method_name : string;
  invocation_sender : string;
  authorized_user : option string;
  serial : nat
}.

Record SessionData := {
  invocation : option GDBusMethodInvocation;
  sender : string;
  username : string;
  verify_status_reported : bool
}.

(** A [GCancellable] is its cancelled flag; the pointer may be NULL. *)
Definition GCancellable := bool.

Definition g_cancellable_is_cancelled (c : option GCancellable) : bool :=
  match c with Some b => b | None => false end.

(** [g_cancellable_cancel]: a no-op on NULL. *)
Definition g_cancellable_cancel (c : option GCancellable) : option GCancellable :=
  match c with Some _ => Some true | None => None end.

Record FprintDevicePrivate := {
  id : nat;
  _session : option SessionData;
  local_storage_checked : bool;
  verify_stop_wait_timeout_id : nat;
  clients : gmap string nat;
  verify_data : option FpPrint;
  identify_data : option (list FpPrint);
  enroll_data : FpFinger;
  current_action : FprintDeviceAction;
  current_cancellable : option GCancellable;
  current_cancel_invocation : option GDBusMethodInvocation
}.

(** Which completion callback an asynchronous identify was given. *)
Inductive IdentifyFor := For_verify | For_enroll.

(** Everything observable the daemon does, in order. *)
Inductive Effect :=
| Return_error (inv : GDBusMethodInvocation) (e : FprintError)
| Complete (inv : GDBusMethodInvocation)
| VerifyStatus (result : string) (done : bool)
| VerifyFingerSelected (finger_name : option string)
| EnrollStatus (result : string) (done : bool)
| Call_cancel
| Timeout_add_seconds (interval : Z) (source : nat)
| Call_open
| Call_verify (print : option FpPrint)
| Call_identify (gallery : option (list FpPrint)) (cb : IdentifyFor)
| Call_enroll (template : FpPrint)
| Call_delete_print (print : FpPrint)
| Call_clear_storage
| Call_open_sync
| Call_close_sync
| Watch_name (name : string)
| Notify_busy
| Warning
| Critical.

(** What the main loop may dispatch while a handler iterates it: the
    verify-stop timer firing, or one of the driver's callbacks. *)
Inductive MainLoopEvent :=
| Ev_timeout (source_id : nat)
| Ev_match_cb (matched : option FpPrint) (error : option FpDeviceRetry)
| Ev_verify_cb (matched : bool) (error : option GError)
| Ev_identify_cb (matched : option FpPrint) (error : option GError).

(** The device object together with what surrounds it: the device and the
    driver's state, the
    store's state, the log of effects, the stream [g_random_int_range]
    draws from with the number of draws so far, today's date, the last
    source id GLib handed out, the GLib
    timeout sources that are armed (id and interval in seconds), and the
    events the main loop will dispatch next. *)
Record World (S : Type) := {
  priv : FprintDevicePrivate;
  dev : FpDevice;
  driver : FpDeviceState;
  store_state : S;
  out : list Effect;
  entropy : nat -> Z;
  draws : nat;
  today : GDate;
  last_source_id : nat;
  timeout_sources : list (nat * Z);
  pending : list MainLoopEvent
}.

Arguments priv {S} _.
Arguments dev {S} _.
Arguments driver {S} _.
Arguments store_state {S} _.
Arguments out {S} _.
Arguments entropy {S} _.
Arguments draws {S} _.
Arguments today {S} _.
Arguments last_source_id {S} _.
Arguments timeout_sources {S} _.
Arguments pending {S} _.

(** *** Field updates *)

Definition set_session (s : option SessionData) (p : FprintDevicePrivate) :=
  {| id := id p; _session := s;
     local_storage_checked := local_storage_checked p;
     verify_stop_wait_timeout_id := verify_stop_wait_timeout_id p;
     clients := clients p; verify_data := verify_data p;
     identify_data := identify_data p; enroll_data := enroll_data p;
     current_action := current_action p;
     current_cancellable := current_cancellable p;
     current_cancel_invocation := current_cancel_invocation p |}.

Definition set_local_storage_checked (b : bool) (p : FprintDevicePrivate) :=
  {| id := id p; _session := _session p;
     local_storage_checked := b;
     verify_stop_wait_timeout_id := verify_stop_wait_timeout_id p;
     clients := clients p; verify_data := verify_data p;
     identify_data := identify_data p; enroll_data := enroll_data p;
     current_action := current_action p;
     current_cancellable := current_cancellable p;
     current_cancel_invocation := current_cancel_invocation p |}.

Definition set_verify_stop_wait_timeout_id (n : nat) (p : FprintDevicePrivate) :=
  {| id := id p; _session := _session p;
     local_storage_checked := local_storage_checked p;
     verify_stop_wait_timeout_id := n;
     clients := clients p; verify_data := verify_data p;
     identify_data := identify_data p; enroll_data := enroll_data p;
     current_action := current_action p;
     current_cancellable := current_cancellable p;
     current_cancel_invocation := current_cancel_invocation p |}.

Definition set_clients (c : gmap string nat) (p : FprintDevicePrivate) :=
  {| id := id p; _session := _session p;
     local_storage_checked := local_storage_checked p;
     verify_stop_wait_timeout_id := verify_stop_wait_timeout_id p;
     clients := c; verify_data := verify_data p;
     identify_data := identify_data p; enroll_data := enroll_data p;
     current_action := current_action p;
     current_cancellable := current_cancellable p;
     current_cancel_invocation := current_cancel_invocation p |}.

Definition set_verify_data (d : option FpPrint) (p : FprintDevicePrivate) :=
  {| id := id p; _session := _session p;
     local_storage_checked := local_storage_checked p;
     verify_stop_wait_timeout_id := verify_stop_wait_timeout_id p;
     clients := clients p; verify_data := d;
     identify_data := identify_data p; enroll_data := enroll_data p;
     current_action := current_action p;
     current_cancellable := current_cancellable p;
     current_cancel_invocation := current_cancel_invocation p |}.

Definition set_identify_data (d : option (list FpPrint)) (p : FprintDevicePrivate) :=
  {| id := id p; _session := _session p;
     local_storage_checked := local_storage_checked p;
     verify_stop_wait_timeout_id := verify_stop_wait_timeout_id p;
     clients := clients p; verify_data := verify_data p;
     identify_data := d; enroll_data := enroll_data p;
     current_action := current_action p;
     current_cancellable := current_cancellable p;
     current_cancel_invocation := current_cancel_invocation p |}.

Definition set_enroll_data (f : FpFinger) (p : FprintDevicePrivate) :=
  {| id := id p; _session := _session p;
     local_storage_checked := local_storage_checked p;
     verify_stop_wait_timeout_id := verify_stop_wait_timeout_id p;
     clients := clients p; verify_data := verify_data p;
     identify_data := identify_data p; enroll_data := f;
     current_action := current_action p;
     current_cancellable := current_cancellable p;
     current_cancel_invocation := current_cancel_invocation p |}.

Definition set_current_action (a : FprintDeviceAction) (p : FprintDevicePrivate) :=
  {| id := id p; _session := _session p;
     local_storage_checked := local_storage_checked p;
     verify_stop_wait_timeout_id := verify_stop_wait_timeout_id p;
     clients := clients p; verify_data := verify_data p;
     identify_data := identify_data p; enroll_data := enroll_data p;
     current_action := a;
     current_cancellable := current_cancellable p;
     current_cancel_invocation := current_cancel_invocation p |}.

Definition set_current_cancellable (c : option GCancellable) (p : FprintDevicePrivate) :=
  {| id := id p; _session := _session p;
     local_storage_checked := local_storage_checked p;
     verify_stop_wait_timeout_id := verify_stop_wait_timeout_id p;
     clients := clients p; verify_data := verify_data p;
     identify_data := identify_data p; enroll_data := enroll_data p;
     current_action := current_action p;
     current_cancellable := c;
     current_cancel_invocation := current_cancel_invocation p |}.

Definition set_current_cancel_invocation (i : option GDBusMethodInvocation)
    (p : FprintDevicePrivate) :=
  {| id := id p; _session := _session p;
     local_storage_checked := local_storage_checked p;
     verify_stop_wait_timeout_id := verify_stop_wait_timeout_id p;
     clients := clients p; verify_data := verify_data p;
     identify_data := identify_data p; enroll_data := enroll_data p;
     current_action := current_action p;
     current_cancellable := current_cancellable p;
     current_cancel_invocation := i |}.

Definition set_verify_status_reported (b : bool) (s : SessionData) :=
  {| invocation := invocation s; sender := sender s; username := username s;
     verify_status_reported := b |}.

Definition set_invocation (i : option GDBusMethodInvocation) (s : SessionData) :=
  {| invocation := i; sender := sender s; username := username s;
     verify_status_reported := verify_status_reported s |}.

Definition set_device_prints (l : list FpPrint) (d : FpDeviceState) :=
  {| fp_device_is_open := fp_device_is_open d;
     device_prints := l;
     list_prints_ok := list_prints_ok d;
     delete_print_ok := delete_print_ok d;
     clear_storage_ok := clear_storage_ok d |}.

Definition set_is_open (b : bool) (d : FpDeviceState) :=
  {| fp_device_is_open := b;
     device_prints := device_prints d;
     list_prints_ok := list_prints_ok d;
     delete_print_ok := delete_print_ok d;
     clear_storage_ok := clear_storage_ok d |}.

(** ** The monad of device operations

    [Ok a w]: the C function returned [a] and left the world [w].
    [Abort]: a [g_assert] failed or a NULL session was dereferenced.
    [Blocked]: the function iterates the main loop and the events given to
    it ran out before its loop condition turned false. *)
Inductive Res (S A : Type) :=
| Ok (a : A) (w : World S)
| Abort
| Blocked.

Arguments Ok {S A} _ _.
Arguments Abort {S A}.
Arguments Blocked {S A}.

Definition M (S A : Type) := World S -> Res S A.

#[global] Instance M_ret S : MRet (M S) := fun A a w => Ok a w.

#[global] Instance M_bind S : MBind (M S) := fun A B f m w =>
  match m w with
  | Ok a w' => f a w'
  | Abort => Abort
  | Blocked => Blocked
  end.

Definition with_priv {S} (p : FprintDevicePrivate) (w : World S) : World S :=
  {| priv := p; dev := dev w; driver := driver w; store_state := store_state w; out := out w;
     entropy := entropy w; draws := draws w; today := today w;
     last_source_id := last_source_id w; timeout_sources := timeout_sources w;
     pending := pending w |}.

Definition with_driver {S} (d : FpDeviceState) (w : World S) : World S :=
  {| priv := priv w; dev := dev w; driver := d; store_state := store_state w; out := out w;
     entropy := entropy w; draws := draws w; today := today w;
     last_source_id := last_source_id w; timeout_sources := timeout_sources w;
     pending := pending w |}.

Definition with_store_state {S} (s : S) (w : World S) : World S :=
  {| priv := priv w; dev := dev w; driver := driver w; store_state := s; out := out w;
     entropy := entropy w; draws := draws w; today := today w;
     last_source_id := last_source_id w; timeout_sources := timeout_sources w;
     pending := pending w |}.

Definition with_out {S} (o : list Effect) (w : World S) : World S :=
  {| priv := priv w; dev := dev w; driver := driver w; store_state := store_state w; out := o;
     entropy := entropy w; draws := draws w; today := today w;
     last_source_id := last_source_id w; timeout_sources := timeout_sources w;
     pending := pending w |}.

Definition with_draws {S} (n : nat) (w : World S) : World S :=
  {| priv := priv w; dev := dev w; driver := driver w; store_state := store_state w; out := out w;
     entropy := entropy w; draws := n; today := today w;
     last_source_id := last_source_id w; timeout_sources := timeout_sources w;
     pending := pending w |}.

Definition with_sources {S} (next : nat) (l : list (nat * Z)) (w : World S) : World S :=
  {| priv := priv w; dev := dev w; driver := driver w; store_state := store_state w; out := out w;
     entropy := entropy w; draws := draws w; today := today w;
     last_source_id := next; timeout_sources := l; pending := pending w |}.

Definition with_pending {S} (l : list MainLoopEvent) (w : World S) : World S :=
  {| priv := priv w; dev := dev w; driver := driver w; store_state := store_state w; out := out w;
     entropy := entropy w; draws := draws w; today := today w;
     last_source_id := last_source_id w; timeout_sources := timeout_sources w;
     pending := l |}.

Section Primitives.
Context {S : Type}.

Definition get_world : M S (World S) := fun w => Ok w w.
Definition get_priv : M S FprintDevicePrivate := fun w => Ok (priv w) w.
Definition get_dev : M S FpDevice := fun w => Ok (dev w) w.
Definition modify_priv (f : FprintDevicePrivate -> FprintDevicePrivate) : M S unit :=
  fun w => Ok tt (with_priv (f (priv w)) w).
Definition get_driver : M S FpDeviceState := fun w => Ok (driver w) w.
Definition modify_driver (f : FpDeviceState -> FpDeviceState) : M S unit :=
  fun w => Ok tt (with_driver (f (driver w)) w).
Definition put_store_state (s : S) : M S unit :=
  fun w => Ok tt (with_store_state s w).
Definition put_sources (last : nat) (armed : list (nat * Z)) : M S unit :=
  fun w => Ok tt (with_sources last armed w).
Definition put_draws (n : nat) : M S unit :=
  fun w => Ok tt (with_draws n w).
Definition emit (e : Effect) : M S unit :=
  fun w => Ok tt (with_out (out w ++ [e]) w).
Definition g_assert_failed {A} : M S A := fun _ => Abort.
Definition g_assert (b : bool) : M S unit :=
  fun w => if b then Ok tt w else Abort.
Definition when (b : bool) (m : M S unit) : M S unit :=
  if b then m else mret tt.

(** [session_data_get]: the current session, or NULL. *)
Definition session_data_get : M S (option SessionData) :=
  fun w => Ok (_session (priv w)) w.

(** A write through the [session] pointer a function got from
    [session_data_get]: it lands in the device's session object, and it is a
    NULL dereference when there is none. *)
Definition session_write (f : SessionData -> SessionData) : M S unit :=
  fun w =>
    match _session (priv w) with
    | Some s => Ok tt (with_priv (set_session (Some (f s)) (priv w)) w)
    | None => Abort
    end.

(** A read through that pointer. *)
Definition session_read {A} (f : SessionData -> A) : M S A :=
  fun w =>
    match _session (priv w) with
    | Some s => Ok (f s) w
    | None => Abort
    end.
End Primitives.

(** ** device.c: claim state and action checks *)

Definition get_claim_state_for_invocation (inv : GDBusMethodInvocation)
    : FprintDeviceClaimState :=
  if g_str_equal (method_name inv) "Claim" then STATE_UNCLAIMED
  else if g_str_equal (method_name inv) "DeleteEnrolledFingers" then STATE_AUTO_CLAIM
  else if g_str_equal (method_name inv) "ListEnrolledFingers" then STATE_ANYTIME
  else STATE_CLAIMED.

(** [_fprint_device_check_claimed]: [None] is TRUE; [Some e] is FALSE with
    [*error] set to [e]. *)
Definition _fprint_device_check_claimed (p : FprintDevicePrivate)
    (inv : GDBusMethodInvocation) : option FprintError :=
  let requested_state := get_claim_state_for_invocation inv in
  if decide (requested_state = STATE_ANYTIME) then None
  else
    let session := _session p in
    let requested_state :=
      if decide (requested_state = STATE_AUTO_CLAIM)
      then match session with Some _ => STATE_CLAIMED | None => STATE_UNCLAIMED end
      else requested_state in
    if decide (requested_state = STATE_UNCLAIMED) then
      match session with
      | None => None
      | Some _ => Some FPRINT_ERROR_ALREADY_IN_USE
      end
    else
      match session with
      | None => Some FPRINT_ERROR_CLAIM_DEVICE
      | Some s =>
          if negb (g_str_equal (invocation_sender inv) (sender s))
             || bool_decide (is_Some (invocation s))
          then Some FPRINT_ERROR_ALREADY_IN_USE
          else None
      end.

Definition can_start_action (p : FprintDevicePrivate) : option FprintError :=
  match current_action p with
  | ACTION_NONE => None
  | ACTION_ENROLL => Some FPRINT_ERROR_ALREADY_IN_USE
  | ACTION_IDENTIFY | ACTION_VERIFY => Some FPRINT_ERROR_ALREADY_IN_USE
  | ACTION_OPEN => Some FPRINT_ERROR_ALREADY_IN_USE
  | ACTION_CLOSE => Some FPRINT_ERROR_ALREADY_IN_USE
  | ACTION_DELETE => Some FPRINT_ERROR_ALREADY_IN_USE
  end.

Definition can_stop_action (p : FprintDevicePrivate) (action : FprintDeviceAction)
    : option FprintError :=
  let action_matches :=
    match current_action p with
    | ACTION_IDENTIFY | ACTION_VERIFY =>
        bool_decide (action = ACTION_VERIFY) || bool_decide (action = ACTION_IDENTIFY)
    | _ => bool_decide (current_action p = action)
    end in
  if action_matches && negb (bool_decide (is_Some (current_cancel_invocation p)))
  then None
  else if negb (bool_decide (current_action p = ACTION_NONE)) || action_matches
  then Some FPRINT_ERROR_ALREADY_IN_USE
  else Some FPRINT_ERROR_NO_ACTION_IN_PROGRESS.

(** ** device.c: result names *)

Definition verify_result_to_name (matched : bool) (error : option GError) : string :=
  match error with
  | None => if matched then "verify-match" else "verify-no-match"
  | Some (FP_DEVICE_RETRY code) =>
      match code with
      | FP_DEVICE_RETRY_TOO_SHORT => "verify-swipe-too-short"
      | FP_DEVICE_RETRY_CENTER_FINGER => "verify-finger-not-centered"
      | FP_DEVICE_RETRY_REMOVE_FINGER => "verify-remove-and-retry"
      | _ => "verify-retry-scan"
      end
  | Some (FP_DEVICE_ERROR FP_DEVICE_ERROR_PROTO) => "verify-disconnected"
  | Some (G_IO_ERROR G_IO_ERROR_CANCELLED) => "verify-no-match"
  | Some (FP_DEVICE_ERROR FP_DEVICE_ERROR_DATA_NOT_FOUND) => "verify-no-match"
  | Some _ => "verify-unknown-error"
  end.

Definition enroll_result_to_name (completed enrolled : bool) (error : option GError)
    : string :=
  match error with
  | None =>
      if negb completed then "enroll-stage-passed"
      else if enrolled then "enroll-completed"
      else "enroll-failed"
  | Some (FP_DEVICE_RETRY code) =>
      match code with
      | FP_DEVICE_RETRY_TOO_SHORT => "enroll-swipe-too-short"
      | FP_DEVICE_RETRY_CENTER_FINGER => "enroll-finger-not-centered"
      | FP_DEVICE_RETRY_REMOVE_FINGER => "enroll-remove-and-retry"
      | _ => "enroll-retry-scan"
      end
  | Some (FP_DEVICE_ERROR FP_DEVICE_ERROR_PROTO) => "enroll-disconnected"
  | Some (FP_DEVICE_ERROR FP_DEVICE_ERROR_DATA_FULL) => "enroll-data-full"
  | Some (G_IO_ERROR G_IO_ERROR_CANCELLED) => "enroll-failed"
  | Some _ => "enroll-unknown-error"
  end.

(** ** device.c: the verify/identify pipeline *)

Section Device.
Context {St : Type} `{!fp_storage St} `{!Libfprint}.

Definition load_user_prints (w : World St) (username : option string) : list FpPrint :=
  omap (fun finger => (print_data_load (dev w) finger username (store_state w)).2)
       (discover_prints (dev w) username (store_state w)).

Definition load_all_prints (w : World St) : list FpPrint :=
  mjoin (map (fun user => load_user_prints w (Some user))
             (discover_users (store_state w))).

(** [g_ptr_array_find_with_equal_func (haystack, needle, fp_print_equal, &index)]:
    the first index whose element equals the needle. *)
Fixpoint g_ptr_array_find (haystack : list FpPrint) (needle : FpPrint) : option nat :=
  match haystack with
  | [] => None
  | x :: rest =>
      if fp_print_equal x needle then Some 0
      else S <$> g_ptr_array_find rest needle
  end.

(** [fp_device_list_prints_sync]: NULL when the query fails. *)
Definition fp_device_list_prints_sync (d : FpDeviceState) : option (list FpPrint) :=
  if list_prints_ok d then Some (device_prints d) else None.

(** [fp_device_delete_print_sync]: TRUE when the driver deleted the print. *)
Definition fp_device_delete_print_sync (print : FpPrint) : M St bool :=
  emit (Call_delete_print print);;
  d ← get_driver;
  if delete_print_ok d print then
    modify_driver (set_device_prints
      (filter (fun q => fp_print_equal q print = false) (device_prints d)));;
    mret true
  else mret false.

Definition report_verify_status (matched : bool) (error : option GError) : M St unit :=
  let result := verify_result_to_name matched error in
  let done := negb (is_retry error) in
  reported ← (if done then session_read verify_status_reported else mret false);
  if done && reported then
    (* "It is completely fine for cancellation to occur after a result
       has been reported." *)
    when (negb (is_cancelled error)) (emit Warning)
  else
    emit (VerifyStatus result done);;
    when done (session_write (set_verify_status_reported true)).

(** The loop of [check_local_storage] over the host prints. *)
Fixpoint check_local_storage_loop (device_prints : list FpPrint)
    (host_prints : list FpPrint) : M St unit :=
  match host_prints with
  | [] => mret tt
  | print :: rest =>
      match g_ptr_array_find device_prints print with
      | Some _ => mret tt
      | None =>
          (* "Print not known by device, remove locally" *)
          w ← get_world;
          let '(r, s') := print_data_delete (dev w) (fp_print_get_finger print)
                            (fp_print_get_username print) (store_state w) in
          put_store_state s';;
          when (negb (r =? 0)%Z) (emit Warning)
      end;;
      check_local_storage_loop device_prints rest
  end.

Definition check_local_storage (found_match : bool) (error : option GError) : M St unit :=
  p ← get_priv;
  d ← get_dev;
  state ← get_driver;
  if negb (bool_decide (current_action p = ACTION_VERIFY)
           || bool_decide (current_action p = ACTION_IDENTIFY))
  then emit Critical                      (* g_return_if_fail *)
  else if negb (FP_DEVICE_FEATURE_STORAGE_LIST d) then mret tt
  else
    let go : M St unit :=
      modify_priv (set_local_storage_checked true);;
      match fp_device_list_prints_sync state with
      | None => emit Warning
      | Some device_prints =>
          w ← get_world;
          check_local_storage_loop device_prints (load_all_prints w)
      end in
    if is_data_not_found error then
      when (local_storage_checked p) (emit Warning);;
      go
    else if bool_decide (is_Some error) || local_storage_checked p then mret tt
    else if negb found_match then go
    else mret tt.

Definition stoppable_action_completed : M St unit :=
  p ← get_priv;
  match current_cancel_invocation p with
  | Some cancel_invocation =>
      (* "Return the cancellation or reset action right away if vanished." *)
      match current_action p with
      | ACTION_VERIFY | ACTION_IDENTIFY => emit (Complete cancel_invocation)
      | ACTION_ENROLL => emit (Complete cancel_invocation)
      | _ => g_assert_failed
      end;;
      modify_priv (set_current_cancel_invocation None);;
      modify_priv (set_current_action ACTION_NONE);;
      session_write (set_verify_status_reported false)
  | None =>
      when (g_cancellable_is_cancelled (current_cancellable p))
        (modify_priv (set_current_action ACTION_NONE);;
         session_write (set_verify_status_reported false))
  end;;
  modify_priv (set_current_cancellable None).

Definition stoppable_action_stop (inv : GDBusMethodInvocation) : M St unit :=
  p ← get_priv;
  g_assert (bool_decide (current_cancel_invocation p = None));;
  modify_priv (set_current_cancel_invocation (Some inv));;
  (* "We return only when the action was cancelled" *)
  match current_cancellable p with
  | Some _ =>
      emit Call_cancel;;       (* g_cancellable_cancel *)
      modify_priv (set_current_cancellable (Some true))
  | None => stoppable_action_completed
  end.

(** [match_cb]: its [g_assert_true] admits only a retry error, which the
    argument's type enforces. *)
Definition match_cb (matched : option FpPrint) (error : option FpDeviceRetry) : M St unit :=
  p ← get_priv;
  let cancelled := g_cancellable_is_cancelled (current_cancellable p) in
  let matched := bool_decide (is_Some matched) && negb cancelled in
  report_verify_status matched (FP_DEVICE_RETRY <$> error).

Definition verify_cb (matched : bool) (error : option GError) : M St unit :=
  p ← get_priv;
  (* "Automatically restart the operation for retry failures" *)
  if is_retry error then emit (Call_verify (verify_data p))
  else
    modify_priv (set_verify_data None);;
    when (bool_decide (is_Some error))
      (report_verify_status false error;;
       when (negb (is_cancelled error)) (emit Warning));;
    check_local_storage matched error;;
    stoppable_action_completed.

Definition identify_cb (matched : option FpPrint) (error : option GError) : M St unit :=
  p ← get_priv;
  if is_retry error then emit (Call_identify (identify_data p) For_verify)
  else
    modify_priv (set_identify_data None);;
    when (bool_decide (is_Some error))
      (report_verify_status false error;;
       when (negb (is_cancelled error)) (emit Warning));;
    check_local_storage (bool_decide (is_Some matched)) error;;
    stoppable_action_completed.

Definition fprint_device_verify_start (inv : GDBusMethodInvocation)
    (finger_name : string) : M St unit :=
  let finger := finger_name_to_fp_finger (Some finger_name) in
  p ← get_priv;
  match _fprint_device_check_claimed p inv with
  | Some error => emit (Return_error inv error)
  | None =>
  user ← session_read username;
  match can_start_action p with
  | Some error => emit (Return_error inv error)
  | None =>
  w ← get_world;
  d ← get_dev;
  let gallery : option (list FpPrint) :=
    if Nat.eqb finger FP_FINGER_UNKNOWN
    then Some (load_user_prints w (Some user)) else None in
  match gallery with
  | Some [] => emit (Return_error inv FPRINT_ERROR_NO_ENROLLED_PRINTS)
  | _ =>
  let finger :=
    match gallery with
    | Some [fprint] =>
        (* "If we only have a single finger, then do verify on that.
           This also means we report it back correctly to the user." *)
        fp_print_get_finger fprint
    | _ => finger
    end in
  if FP_DEVICE_FEATURE_IDENTIFY d && Nat.eqb finger FP_FINGER_UNKNOWN then
    modify_priv (set_current_action ACTION_IDENTIFY);;
    modify_priv (set_current_cancellable (Some false));;
    modify_priv (set_identify_data gallery);;
    emit (Call_identify gallery For_verify);;
    emit (Complete inv);;
    emit (VerifyFingerSelected (fp_finger_to_name finger))
  else
    let print : option FpPrint :=
      match gallery with
      | Some g => head g
      | None => (print_data_load d finger (Some user) (store_state w)).2
      end in
    let finger :=
      match gallery, print with
      | Some _, Some pr => fp_print_get_finger pr
      | _, _ => finger
      end in
    match print with
    | None => emit (Return_error inv FPRINT_ERROR_NO_ENROLLED_PRINTS)
    | Some pr =>
        modify_priv (set_current_action ACTION_VERIFY);;
        modify_priv (set_current_cancellable (Some false));;
        modify_priv (set_verify_data (Some pr));;
        emit (Call_verify (Some pr));;
        emit (Complete inv);;
        emit (VerifyFingerSelected (fp_finger_to_name finger))
    end
  end end end.

(** [verify_has_completed]: its [default:] case is [g_assert_not_reached]. *)
Definition verify_has_completed : M St bool :=
  p ← get_priv;
  match current_cancellable p with
  | None => mret true
  | Some true => mret true
  | Some false =>
      match current_action p with
      | ACTION_VERIFY => mret (negb (bool_decide (is_Some (verify_data p))))
      | ACTION_IDENTIFY => mret (negb (bool_decide (is_Some (identify_data p))))
      | _ => g_assert_failed
      end
  end.

(** [g_timeout_add_seconds (interval, verify_stop_wait_timeout, &id)]. *)
Definition g_timeout_add_seconds (interval : Z) : M St nat :=
  w ← get_world;
  let source := Datatypes.S (last_source_id w) in   (* ids are positive *)
  emit (Timeout_add_seconds interval source);;
  put_sources source (timeout_sources w ++ [(source, interval)]);;
  mret source.

Definition g_source_remove (source : nat) : M St unit :=
  w ← get_world;
  put_sources (last_source_id w) (filter (fun s => s.1 ≠ source) (timeout_sources w)).

(** [verify_stop_wait_timeout]: zeroes the id it was given a pointer to and
    returns FALSE, which removes the source. *)
Definition verify_stop_wait_timeout (source : nat) : M St unit :=
  modify_priv (set_verify_stop_wait_timeout_id 0);;
  g_source_remove source.

(** What the main loop runs for an event; a timeout source that is no
    longer armed does not fire. *)
Definition dispatch (ev : MainLoopEvent) : M St unit :=
  match ev with
  | Ev_timeout source =>
      w ← get_world;
      when (bool_decide (source ∈ (timeout_sources w).*1))
        (verify_stop_wait_timeout source)
  | Ev_match_cb matched error => match_cb matched error
  | Ev_verify_cb matched error => verify_cb matched error
  | Ev_identify_cb matched error => identify_cb matched error
  end.

(** One [g_main_context_iteration (NULL, TRUE)]: wait for the next event
    and dispatch it. *)
Definition g_main_context_iteration : M St unit :=
  fun w =>
    match pending w with
    | [] => Blocked
    | ev :: rest => dispatch ev (with_pending rest w)
    end.

Definition VERIFY_STOP_DEVICE_WAIT : Z := 1.  (* "Seconds to wait for the device to complete" *)

(** [while (priv->verify_stop_wait_timeout_id && !verify_has_completed (rdev))
      g_main_context_iteration (NULL, TRUE);]
    Every iteration consumes one pending event, so [fuel] above their number
    never runs out before the loop blocks. *)
Fixpoint verify_stop_wait (fuel : nat) : M St unit :=
  match fuel with
  | O => fun _ => Blocked
  | Datatypes.S fuel' =>
      p ← get_priv;
      completed ← (if Nat.eqb (verify_stop_wait_timeout_id p) 0
                   then mret true else verify_has_completed);
      if negb (Nat.eqb (verify_stop_wait_timeout_id p) 0) && negb completed
      then g_main_context_iteration;; verify_stop_wait fuel'
      else mret tt
  end.

(** [g_clear_handle_id (&priv->verify_stop_wait_timeout_id, g_source_remove)]. *)
Definition clear_verify_stop_wait_timeout_id : M St unit :=
  p ← get_priv;
  if Nat.eqb (verify_stop_wait_timeout_id p) 0 then mret tt
  else
    modify_priv (set_verify_stop_wait_timeout_id 0);;
    g_source_remove (verify_stop_wait_timeout_id p).

Definition fprint_device_verify_stop (inv : GDBusMethodInvocation) : M St unit :=
  p ← get_priv;
  match _fprint_device_check_claimed p inv with
  | Some error => emit (Return_error inv error)
  | None =>
  match can_stop_action p ACTION_VERIFY with
  | Some error => emit (Return_error inv error)
  | None =>
  completed ← verify_has_completed;
  reported ← (if completed then mret false else session_read verify_status_reported);
  if negb completed && reported then
    (* "If we got a status report we need to delay the cancellation of the
       action, leaving the device some more time to complete the operation
       (and in case return the real error) before proceed in cancelling it." *)
    g_assert (Nat.eqb (verify_stop_wait_timeout_id p) 0);;
    source ← g_timeout_add_seconds VERIFY_STOP_DEVICE_WAIT;
    modify_priv (set_verify_stop_wait_timeout_id source);;
    g_assert (bool_decide (current_cancel_invocation p = None));;
    modify_priv (set_current_cancel_invocation (Some inv));;
    w ← get_world;
    verify_stop_wait (Datatypes.S (length (pending w)));;
    clear_verify_stop_wait_timeout_id;;
    p' ← get_priv;
    match current_cancel_invocation p' with
    | None => mret tt
    | Some _ =>
        modify_priv (set_current_cancel_invocation None);;
        stoppable_action_stop inv
    end
  else stoppable_action_stop inv
  end end.
(** ** device.c: on-device garbage collection *)

(** [g_random_int_range (begin, end)]: the next value of the stream, brought
    into [begin, end). *)
Definition g_random_int_range (lo hi : Z) (draw : nat) (stream : nat -> Z) : Z :=
  (lo + stream draw `mod` (hi - lo))%Z.

Definition G_MAXINT32 : Z := 2147483647.

(** A [guint32] difference returned as a [gint]. *)
Definition guint32_diff_to_gint (a b : Z) : Z :=
  let d := ((a - b) `mod` 4294967296)%Z in
  if (d <? 2147483648)%Z then d else (d - 4294967296)%Z.

Definition julian_of (print : FpPrint) : Z :=
  match fp_print_get_enroll_date print with
  | Some date => if g_date_valid date then g_date_get_julian date else 0%Z
  | None => 0%Z
  end.

(** The state [garbage_collect_sort] works on: the "sort-rand" datum of
    each print object (absent reads as 0) and the draws made so far. The
    array being sorted holds pointers: a print object is named by its
    position in the list the driver returned. *)
Definition SortState : Type := gmap nat Z * nat.

Definition sort_rand (stream : nat -> Z) (obj : nat) (st : SortState) : Z * SortState :=
  let rand := default 0%Z (st.1 !! obj) in
  if (rand =? 0)%Z then
    let rand := g_random_int_range 1 G_MAXINT32 st.2 stream in
    (rand, (<[obj := rand]> st.1, Datatypes.S st.2))
  else (rand, st).

Definition garbage_collect_sort (objects : list FpPrint) (stream : nat -> Z)
    (a b : nat) (st : SortState) : Z * SortState :=
  let julian_a := default 0%Z (julian_of <$> objects !! a) in
  let julian_b := default 0%Z (julian_of <$> objects !! b) in
  (* "Sort older prints first." *)
  if negb (julian_a =? julian_b)%Z then (guint32_diff_to_gint julian_b julian_a, st)
  else
    (* "Randomize the order, do so by sorting on a random number we assign
       to each print." *)
    let '(rand_a, st) := sort_rand stream a st in
    let '(rand_b, st) := sort_rand stream b st in
    ((rand_b - rand_a)%Z, st).

(** [g_ptr_array_sort]: GLib sorts stably; an element goes before another
    when the comparison of the two is negative, and elements that compare
    equal keep their order. Written as an insertion sort that threads the
    comparison's state. *)
Fixpoint sort_insert (cmp : nat -> nat -> SortState -> Z * SortState)
    (x : nat) (sorted : list nat) (st : SortState) : list nat * SortState :=
  match sorted with
  | [] => ([x], st)
  | y :: rest =>
      let '(c, st) := cmp x y st in
      if (c <=? 0)%Z then (x :: y :: rest, st)
      else let '(l, st) := sort_insert cmp x rest st in (y :: l, st)
  end.

Fixpoint g_ptr_array_sort (cmp : nat -> nat -> SortState -> Z * SortState)
    (array : list nat) (st : SortState) : list nat * SortState :=
  match array with
  | [] => ([], st)
  | x :: rest =>
      let '(sorted, st) := g_ptr_array_sort cmp rest st in
      sort_insert cmp x sorted st
  end.

(** The loop of [try_delete_print] over the host prints: each one removes
    the first device print equal to it, if any. *)
Fixpoint remove_host_prints (device_prints host_prints : list FpPrint) : list FpPrint :=
  match host_prints with
  | [] => device_prints
  | print :: rest =>
      match g_ptr_array_find device_prints print with
      | None => remove_host_prints device_prints rest
      | Some index => remove_host_prints (delete index device_prints) rest
      end
  end.

Definition try_delete_print : M St bool :=
  d ← get_driver;
  match fp_device_list_prints_sync d with
  | None => (emit Warning;; mret false)
  | Some device_prints =>
      w ← get_world;
      (* "Sort in order of preferred garbage collection.
         With randomization if we can't sort them." *)
      let '(order, (_, draws')) :=
        g_ptr_array_sort (garbage_collect_sort device_prints (entropy w))
          (seq 0 (length device_prints)) (∅, draws w) in
      put_draws draws';;
      let device_prints := omap (fun obj => device_prints !! obj) order in
      let device_prints := remove_host_prints device_prints (load_all_prints w) in
      match device_prints with
      | [] => mret false
      | first :: _ =>
          (* "Just delete the first print in the list at this point." *)
          deleted ← fp_device_delete_print_sync first;
          if (deleted : bool) then mret true else (emit Warning;; mret false)
      end
  end.
(** ** device.c: enrollment *)

Definition fprint_device_create_enroll_template (finger : FpFinger) : M St FpPrint :=
  user ← session_read username;
  w ← get_world;
  mret {| fp_print_get_driver := fp_device_get_driver (dev w);
          fp_print_get_device_id := fp_device_get_device_id (dev w);
          fp_print_get_username := Some user;
          fp_print_get_finger := finger;
          fp_print_get_enroll_date := Some (today w);
          fp_print_get_device_stored := false;
          print_data := [] |}.

Definition enroll_start : M St unit :=
  p ← get_priv;
  template ← fprint_device_create_enroll_template (enroll_data p);
  emit (Call_enroll template).

(** [enroll_cb]: [print] is what [fp_device_enroll_finish] returned. *)
Definition enroll_cb (print : option FpPrint) (error : option GError) : M St unit :=
  d ← get_dev;
  (* "We need to special case the issue where the on device storage is
     completely full. In that case, we check whether we can delete a print
     that is not coming from us; assuming it is from an old installation." *)
  restarted ←
    (if is_data_full error && FP_DEVICE_FEATURE_STORAGE_LIST d then
       collected ← try_delete_print;
       if (collected : bool) then
         (* "Success? Then restart the operation" *)
         enroll_start;; mret true
       else mret false
     else mret false);
  if (restarted : bool) then mret tt
  else
    let name := enroll_result_to_name true (bool_decide (is_Some print)) error in
    name ←
      match print with
      | Some pr =>
          w ← get_world;
          let '(r, s') := print_data_save pr (store_state w) in
          put_store_state s';;
          mret (if (r =? 0)%Z then name else "enroll-failed")
      | None => mret name
      end;
    emit (EnrollStatus name true);;
    when (bool_decide (is_Some error) && negb (is_cancelled error)) (emit Warning);;
    stoppable_action_completed.

Definition is_first_enrollment (w : World St) : bool :=
  bool_decide (load_all_prints w = []).

Definition fp_device_clear_storage_sync : M St bool :=
  emit Call_clear_storage;;
  d ← get_driver;
  if clear_storage_ok d then (modify_driver (set_device_prints []);; mret true)
  else mret false.

(** ** device.c: deleting enrolled prints *)

Definition user_has_print_enrolled (w : World St) (user : string) (finger : FpFinger)
    : bool :=
  let prints := discover_prints (dev w) (Some user) (store_state w) in
  if Nat.eqb finger FP_FINGER_UNKNOWN then negb (bool_decide (prints = []))
  else bool_decide (finger ∈ prints).

(** The device-side loop of [delete_enrolled_fingers]; it returns the
    [device_error] it leaves set. *)
Fixpoint delete_from_device (user : string) (finger : FpFinger)
    (prints : list FpFinger) (device_error : option FprintError)
    : M St (option FprintError) :=
  match prints with
  | [] => mret device_error
  | l :: rest =>
      w ← get_world;
      match (print_data_load (dev w) l (Some user) (store_state w)).2 with
      | None => delete_from_device user finger rest device_error
      | Some print =>
          if negb (Nat.eqb finger FP_FINGER_UNKNOWN)
             && negb (Nat.eqb (fp_print_get_finger print) finger)
          then delete_from_device user finger rest device_error
          else
            deleted ← fp_device_delete_print_sync print;
            if (deleted : bool) then delete_from_device user finger rest device_error
            else
              emit Warning;; emit Warning;;
              delete_from_device user finger rest
                (match device_error with
                 | None => Some FPRINT_ERROR_PRINTS_NOT_DELETED_FROM_DEVICE
                 | Some e => Some e
                 end)
      end
  end.

(** [store.print_data_delete] through the world. *)
Definition store_print_data_delete (finger : FpFinger) (user : string) : M St Z :=
  w ← get_world;
  let '(r, s') := print_data_delete (dev w) finger (Some user) (store_state w) in
  put_store_state s';;
  mret r.

(** The loop over all slots when no finger was named; it returns the
    [local_error] it leaves set. *)
Fixpoint delete_all_slots (user : string) (slots : list FpFinger)
    (local_error : option FprintError) : M St (option FprintError) :=
  match slots with
  | [] => mret local_error
  | i :: rest =>
      r ← store_print_data_delete i user;
      if (r =? 0)%Z then delete_all_slots user rest local_error
      else
        match local_error with
        | Some _ => delete_all_slots user rest local_error
        | None =>
            w ← get_world;
            if user_has_print_enrolled w user i
            then
              (* "Do not return yet, at least try to remove the remaining prints" *)
              delete_all_slots user rest (Some FPRINT_ERROR_PRINTS_NOT_DELETED)
            else delete_all_slots user rest None
        end
  end.

(** [delete_enrolled_fingers]: [None] is TRUE; [Some e] is FALSE with
    [*error] set to [e]. *)
Definition delete_enrolled_fingers (user : string) (finger : FpFinger)
    : M St (option FprintError) :=
  w ← get_world;
  if negb (user_has_print_enrolled w user finger)
  then mret (Some FPRINT_ERROR_NO_ENROLLED_PRINTS)
  else
    (* "First try deleting the print from the device, we don't consider it
       fatal if this does not work." *)
    device_error ←
      (if FP_DEVICE_FEATURE_STORAGE (dev w)
       then delete_from_device user finger
              (discover_prints (dev w) (Some user) (store_state w)) None
       else mret None);
    store_error ←
      (if negb (Nat.eqb finger FP_FINGER_UNKNOWN) then
         r ← store_print_data_delete finger user;
         w' ← get_world;
         if negb (r =? 0)%Z && user_has_print_enrolled w' user finger
         then mret (Some FPRINT_ERROR_PRINTS_NOT_DELETED)
         else mret None
       else
         delete_all_slots user
           (seq FP_FINGER_FIRST (Datatypes.S FP_FINGER_LAST - FP_FINGER_FIRST)) None);
    match store_error with
    | Some e => mret (Some e)
    | None =>
        (* "This is a low priority error, higher priority errors would have
           returned failure already" *)
        mret device_error
    end.
(** ** device.c: the bus method handlers *)

(** Runs [body] and then the [FprintDeviceActionUnset] cleanup, as for a
    function that has assigned [action_unset = rdev]. *)
Definition with_action_unset (body : M St unit) : M St unit :=
  body;; modify_priv (set_current_action ACTION_NONE).

Definition fprint_device_enroll_start (inv : GDBusMethodInvocation)
    (finger_name : string) : M St unit :=
  let finger := finger_name_to_fp_finger (Some finger_name) in
  p ← get_priv;
  match _fprint_device_check_claimed p inv with
  | Some error => emit (Return_error inv error)
  | None =>
  if Nat.eqb finger FP_FINGER_UNKNOWN
  then emit (Return_error inv FPRINT_ERROR_INVALID_FINGERNAME)
  else
  user ← session_read username;
  w ← get_world;
  let existing_print := (print_data_load (dev w) finger (Some user) (store_state w)).2 in
  match can_start_action p with
  | Some error => emit (Return_error inv error)
  | None =>
  deleted ←
    match existing_print with
    | Some _ => delete_enrolled_fingers user finger
    | None => mret None
    end;
  match deleted with
  | Some error => emit (Return_error inv error)
  | None =>
      modify_priv (set_current_cancellable (Some false));;
      modify_priv (set_enroll_data finger);;
      modify_priv (set_current_action ACTION_ENROLL);;
      w ← get_world;
      when (negb (FP_DEVICE_FEATURE_STORAGE_LIST (dev w)) && is_first_enrollment w)
        (cleared ← fp_device_clear_storage_sync;
         when (negb cleared) (emit Warning));;
      w ← get_world;
      (if FP_DEVICE_FEATURE_IDENTIFY (dev w)
       then
         (* "We (now) have the policy that there must be no duplicate prints." *)
         emit (Call_identify (Some (load_all_prints w)) For_enroll)
       else emit Warning;; enroll_start);;
      emit (Complete inv)
  end end end.

Definition fprint_device_delete_enrolled_finger (inv : GDBusMethodInvocation)
    (finger_name : string) : M St unit :=
  let finger := finger_name_to_fp_finger (Some finger_name) in
  p ← get_priv;
  match _fprint_device_check_claimed p inv with
  | Some error => emit (Return_error inv error)
  | None =>
  if Nat.eqb finger FP_FINGER_UNKNOWN
  then emit (Return_error inv FPRINT_ERROR_INVALID_FINGERNAME)
  else
  match can_start_action p with
  | Some error => emit (Return_error inv error)
  | None =>
      modify_priv (set_current_action ACTION_DELETE);;
      with_action_unset
        (user ← session_read username;
         r ← delete_enrolled_fingers user finger;
         match r with
         | Some error => emit (Return_error inv error)
         | None => emit (Complete inv)
         end)
  end end.

Definition fprint_device_delete_enrolled_fingers2 (inv : GDBusMethodInvocation)
    : M St unit :=
  p ← get_priv;
  match _fprint_device_check_claimed p inv with
  | Some error => emit (Return_error inv error)
  | None =>
  match can_start_action p with
  | Some error => emit (Return_error inv error)
  | None =>
      modify_priv (set_current_action ACTION_DELETE);;
      with_action_unset
        (user ← session_read username;
         r ← delete_enrolled_fingers user FP_FINGER_UNKNOWN;
         match r with
         | Some error => emit (Return_error inv error)
         | None => emit (Complete inv)
         end)
  end end.

Definition _fprint_device_add_client (sender : string) : M St unit :=
  p ← get_priv;
  if Nat.eqb (default 0 (clients p !! sender)) 0 then
    w ← get_world;
    let watch := Datatypes.S (last_source_id w) in     (* g_bus_watch_name *)
    put_sources watch (timeout_sources w);;
    emit (Watch_name sender);;
    modify_priv (set_clients (<[sender := watch]> (clients p)));;
    emit Notify_busy
  else mret tt.

(** [fp_device_open_sync] and [fp_device_close_sync] as the legacy delete
    calls them: it passes no [GError] and ignores the result. *)
Definition fp_device_open_sync : M St unit :=
  emit Call_open_sync;; modify_driver (set_is_open true).

Definition fp_device_close_sync : M St unit :=
  emit Call_close_sync;; modify_driver (set_is_open false).

(** The legacy [DeleteEnrolledFingers (username)]. *)
Definition fprint_device_delete_enrolled_fingers (inv : GDBusMethodInvocation)
    (username : string) : M St unit :=
  emit Warning;;   (* "The API user should be updated to use DeleteEnrolledFingers2 method!" *)
  p ← get_priv;
  match can_start_action p with
  | Some error => emit (Return_error inv error)
  | None =>
      modify_priv (set_current_action ACTION_DELETE);;
      with_action_unset
        (d ← get_dev;
         state ← get_driver;
         let continue (opened : bool) : M St unit :=
           _fprint_device_add_client (invocation_sender inv);;
           when (negb opened && FP_DEVICE_FEATURE_STORAGE d) fp_device_open_sync;;
           match authorized_user inv with
           | None => g_assert_failed
           | Some user =>
               g_assert (g_str_equal username "" || g_str_equal user username);;
               r ← delete_enrolled_fingers user FP_FINGER_UNKNOWN;
               when (negb opened && FP_DEVICE_FEATURE_STORAGE d) fp_device_close_sync;;
               match r with
               | Some error => emit (Return_error inv error)
               | None => emit (Complete inv)
               end
           end in
         match _fprint_device_check_claimed p inv with
         | Some error =>
             (* "Return error for anything but FPRINT_ERROR_CLAIM_DEVICE" *)
             if bool_decide (error = FPRINT_ERROR_CLAIM_DEVICE)
             then continue false
             else emit (Return_error inv error)
         | None => continue (fp_device_is_open state)
         end)
  end.

Definition fprint_device_claim (inv : GDBusMethodInvocation) (username : string)
    : M St unit :=
  p ← get_priv;
  match _fprint_device_check_claimed p inv with
  | Some error => emit (Return_error inv error)
  | None =>
      match authorized_user inv with
      | None => g_assert_failed
      | Some user =>
          g_assert (g_str_equal username "" || g_str_equal user username);;
          _fprint_device_add_client (invocation_sender inv);;
          (* session_data_set_new, then session->invocation = invocation *)
          modify_priv (set_session (Some
            {| invocation := Some inv; sender := invocation_sender inv;
               username := user; verify_status_reported := false |}));;
          modify_priv (set_current_action ACTION_OPEN);;
          emit Call_open
      end
  end.

(** [dev_open_cb]: [opened] is the result of [fp_device_open_finish]. *)
Definition dev_open_cb (opened : bool) : M St unit :=
  with_action_unset
    (inv ← session_read invocation;
     session_write (set_invocation None);;
     match inv with
     | None => emit Critical      (* replying to a NULL invocation *)
     | Some inv =>
         if opened then emit (Complete inv)
         else
           emit (Return_error inv FPRINT_ERROR_INTERNAL);;
           modify_priv (set_session None)
     end).
End Device.

(** ** manager.c: device lookup *)

Definition FPRINT_SERVICE_PATH : string := "/net/reactivated/Fprint".

(** An exported device object, known by the id of its device. *)
Record FprintDBusObjectSkeleton := { device_id : nat }.

(** [get_device_path]: FPRINT_SERVICE_PATH "/Device/%d", the path the device
    is exported at. *)
Definition get_device_path (o : FprintDBusObjectSkeleton) : string :=
  FPRINT_SERVICE_PATH +:+ "/Device/" +:+ pretty (device_id o).

(** [objects] is what [g_dbus_object_manager_get_objects] enumerates. *)
Definition fprint_manager_get_devices (objects : list FprintDBusObjectSkeleton)
    : list string :=
  map get_device_path (reverse objects).

(** [fprint_manager_get_default_device]: the device path, or the error it
    sets when it returns FALSE. *)
Definition fprint_manager_get_default_device (objects : list FprintDBusObjectSkeleton)
    : FprintError + string :=
  let num_open := length objects in
  if Nat.ltb 0 num_open then
    match last objects with
    | Some object => inr (get_device_path object)
    | None => inl FPRINT_ERROR_NO_SUCH_DEVICE   (* not reached: the list is not empty *)
    end
  else inl FPRINT_ERROR_NO_SUCH_DEVICE.

(** The reply [handle_get_default_device] sends for the call. *)
Inductive ManagerReply :=
| Manager_return_error (e : FprintError)
| Manager_complete_get_default_device (device : string)
| Manager_complete_get_devices (devices : list string).

Definition handle_get_default_device (objects : list FprintDBusObjectSkeleton)
    : ManagerReply :=
  match fprint_manager_get_default_device objects with
  | inl error => Manager_return_error error
  | inr device => Manager_complete_get_default_device device
  end.

Definition handle_get_devices (objects : list FprintDBusObjectSkeleton) : ManagerReply :=
  Manager_complete_get_devices (fprint_manager_get_devices objects).

(** ** file_storage.c: the built-in template store *)

(** *** The file system, as the backend uses it

    A path is the list of the elements [g_build_filename] joined. The file
    system lists its inodes in the order [g_dir_read_name] yields them. *)
Inductive Inode :=
| Regular (readable : bool) (contents : string)
| Directory.

Definition FileSystem : Type := list (list string * Inode).

Inductive GFileError :=
| G_FILE_ERROR_EXIST
| G_FILE_ERROR_ISDIR
| G_FILE_ERROR_ACCES
| G_FILE_ERROR_NAMETOOLONG
| G_FILE_ERROR_NOENT
| G_FILE_ERROR_NOTDIR.

#[global] Instance GFileError_eq_dec : EqDecision GFileError.
Proof. solve_decision. Defined.

(** The [code] of a [GError] in the G_FILE_ERROR domain. *)
Definition g_file_error_code (e : GFileError) : Z :=
  match e with
  | G_FILE_ERROR_EXIST => 0
  | G_FILE_ERROR_ISDIR => 1
  | G_FILE_ERROR_ACCES => 2
  | G_FILE_ERROR_NAMETOOLONG => 3
  | G_FILE_ERROR_NOENT => 4
  | G_FILE_ERROR_NOTDIR => 5
  end.

Definition ENOENT : Z := 2.
Definition EIO : Z := 5.
Definition ENOMEM : Z := 12.
Definition EINVAL : Z := 22.

Fixpoint fs_lookup (fs : FileSystem) (path : list string) : option Inode :=
  match fs with
  | [] => None
  | (p, inode) :: rest =>
      if bool_decide (p = path) then Some inode else fs_lookup rest path
  end.

Definition fs_remove (fs : FileSystem) (path : list string) : FileSystem :=
  filter (fun e => e.1 ≠ path) fs.

(** The names in a directory, in listing order. *)
Definition fs_children (fs : FileSystem) (dir : list string) : list string :=
  omap (fun e => if bool_decide (removelast e.1 = dir)
                 then last e.1 else None) fs.

Definition g_path_get_dirname (path : list string) : list string := removelast path.

(** [g_build_filename]: empty elements are skipped. *)
Definition g_build_filename (base : list string) (elems : list string) : list string :=
  (base ++ filter (fun e => e ≠ "") elems)%list.

Definition g_file_test_exists (fs : FileSystem) (path : list string) : bool :=
  bool_decide (is_Some (fs_lookup fs path)).

Definition g_file_get_contents (fs : FileSystem) (path : list string)
    : GFileError + string :=
  match fs_lookup fs path with
  | Some (Regular true contents) => inr contents
  | Some (Regular false _) => inl G_FILE_ERROR_ACCES
  | Some Directory => inl G_FILE_ERROR_ISDIR
  | None => inl G_FILE_ERROR_NOENT
  end.

(** [g_dir_open] followed by reading every name: [None] when there is no
    such directory. *)
Definition g_dir_read_names (fs : FileSystem) (dir : list string) : option (list string) :=
  match fs_lookup fs dir with
  | Some Directory => Some (fs_children fs dir)
  | _ => None
  end.

(** [g_mkdir_with_parents]: 0, or -1 when an ancestor is not a directory. *)
Fixpoint g_mkdir_with_parents_from (fs : FileSystem) (done todo : list string)
    : Z * FileSystem :=
  match todo with
  | [] => (0%Z, fs)
  | e :: rest =>
      let dir := (done ++ [e])%list in
      match fs_lookup fs dir with
      | Some Directory => g_mkdir_with_parents_from fs dir rest
      | Some (Regular _ _) => ((-1)%Z, fs)
      | None => g_mkdir_with_parents_from (fs ++ [(dir, Directory)])%list dir rest
      end
  end.

Definition g_mkdir_with_parents (fs : FileSystem) (dir : list string) : Z * FileSystem :=
  g_mkdir_with_parents_from fs [] dir.

(** [g_file_set_contents]: the error it sets, if any. *)
Definition g_file_set_contents (fs : FileSystem) (path : list string) (buf : string)
    : option GFileError * FileSystem :=
  match fs_lookup fs (g_path_get_dirname path), fs_lookup fs path with
  | Some Directory, Some Directory => (Some G_FILE_ERROR_ISDIR, fs)
  | Some Directory, Some (Regular _ _) =>
      (None, map (fun e => if bool_decide (e.1 = path)
                           then (path, Regular true buf) else e) fs)
  | Some Directory, None => (None, (fs ++ [(path, Regular true buf)])%list)
  | Some (Regular _ _), _ => (Some G_FILE_ERROR_NOTDIR, fs)
  | None, _ => (Some G_FILE_ERROR_NOENT, fs)
  end.

Definition g_unlink (fs : FileSystem) (path : list string) : Z * FileSystem :=
  match fs_lookup fs path with
  | Some (Regular _ _) => (0%Z, fs_remove fs path)
  | _ => ((-1)%Z, fs)
  end.

Definition g_rmdir (fs : FileSystem) (dir : list string) : Z * FileSystem :=
  match fs_lookup fs dir with
  | Some Directory =>
      if bool_decide (fs_children fs dir = []) then (0%Z, fs_remove fs dir)
      else ((-1)%Z, fs)
  | _ => ((-1)%Z, fs)
  end.

(** *** The backend *)

Definition FILE_STORAGE_PATH : string := "/var/lib/fprint".

(** The backend's state: its static [storage_path], the process's
    STATE_DIRECTORY environment variable, and the file system. *)
Record FileStore := {
  storage_path : option string;
  STATE_DIRECTORY : option string;
  files : FileSystem
}.

Definition with_files (fs : FileSystem) (s : FileStore) : FileStore :=
  {| storage_path := storage_path s; STATE_DIRECTORY := STATE_DIRECTORY s; files := fs |}.

Definition with_storage_path (p : option string) (s : FileStore) : FileStore :=
  {| storage_path := p; STATE_DIRECTORY := STATE_DIRECTORY s; files := files s |}.

(** [strchr (s, c) != NULL]. *)
Fixpoint strchr (s : string) (c : ascii) : bool :=
  match s with
  | EmptyString => false
  | String a rest => if Ascii.eqb a c then true else strchr rest c
  end.

(** [g_strsplit (s, delimiter, -1)] for a one-character delimiter; the
    empty string splits into the empty vector. *)
Fixpoint g_strsplit_from (s : string) (delimiter : ascii) (piece : string) : list string :=
  match s with
  | EmptyString => [piece]
  | String a rest =>
      if Ascii.eqb a delimiter then piece :: g_strsplit_from rest delimiter ""
      else g_strsplit_from rest delimiter (piece +:+ String a "")
  end.

Definition g_strsplit (s : string) (delimiter : ascii) : list string :=
  match s with
  | EmptyString => []
  | _ => g_strsplit_from s delimiter ""
  end.

(** [get_storage_path]: the path, and the static variable it leaves set. *)
Definition get_storage_path (s : FileStore) : string * FileStore :=
  match storage_path s with
  | Some cached => (cached, s)
  | None =>
      let chosen : option string :=
        match STATE_DIRECTORY s with
        | Some path =>
            (* "If multiple directories are set, then in the environment
               variable the paths are concatenated with colon (":")." *)
            if strchr path ":" then head (g_strsplit path ":")
            else if negb (g_str_equal path "") then Some path
            else None
        | None => None
        end in
      let result := default FILE_STORAGE_PATH chosen in
      (result, with_storage_path (Some result) s)
  end.


(** ["%x"] written by [g_snprintf] into [char fingername[2]]: room for one
    character, so the first hex digit of the value. *)
Definition hex_digit (n : nat) : ascii :=
  nth n (list_ascii_of_string "0123456789abcdef") "0"%char.

Fixpoint first_hex_digit (fuel n : nat) : nat :=
  match fuel with
  | O => n
  | Datatypes.S fuel' => if Nat.ltb n 16 then n else first_hex_digit fuel' (n / 16)
  end.

Definition fingername (finger : FpFinger) : string :=
  String (hex_digit (first_hex_digit finger finger)) "".

(** [g_ascii_strtoull (ent, &endptr, 16)] on a one-character name: [None]
    when nothing was parsed ([endptr == ent]). *)
Definition hex_value (c : ascii) : option nat :=
  let n := nat_of_ascii c in
  if Nat.leb 48 n && Nat.leb n 57 then Some (n - 48)
  else if Nat.leb 97 n && Nat.leb n 102 then Some (n - 87)
  else if Nat.leb 65 n && Nat.leb n 70 then Some (n - 55)
  else None.

Section FileStorage.
Context `{!Libfprint}.

Definition get_path_to_storedir (driver device_id : string) (base_store : list string)
    : list string :=
  g_build_filename base_store [driver; device_id].

Definition __get_path_to_print (driver device_id : string) (finger : FpFinger)
    (base_store : list string) : list string :=
  let dirpath := get_path_to_storedir driver device_id base_store in
  g_build_filename dirpath [fingername finger].

Definition get_path_to_print (dev : FpDevice) (finger : FpFinger)
    (base_store : list string) : list string :=
  __get_path_to_print (fp_device_get_driver dev) (fp_device_get_device_id dev)
    finger base_store.

Definition get_path_to_print_dscv (dev : FpDevice) (finger : FpFinger)
    (base_store : list string) : list string :=
  __get_path_to_print (fp_device_get_driver dev) (fp_device_get_device_id dev)
    finger base_store.

(** [g_build_filename (get_storage_path (), username, NULL)]: a NULL user
    name ends the argument list early. The static [storage_path] that
    [get_storage_path] leaves set is a function of the state it is read
    from, so the readers below do not hand the state back. *)
Definition file_storage_get_basestore_for_username (s : FileStore)
    (username : option string) : list string :=
  g_build_filename [(get_storage_path s).1]
    match username with Some u => [u] | None => [] end.

(** [load_from_file]: the result, and the print it stored in [*print]. *)
Definition load_from_file (fs : FileSystem) (path : list string) : Z * option FpPrint :=
  match g_file_get_contents fs path with
  | inl err =>
      if bool_decide (err = G_FILE_ERROR_NOENT) then ((- ENOENT)%Z, None)
      else (g_file_error_code err, None)
  | inr contents =>
      match fp_print_deserialize contents with
      | None => ((- EIO)%Z, None)
      | Some new => (0%Z, Some new)
      end
  end.

Definition file_storage_print_data_load (dev : FpDevice) (finger : FpFinger)
    (username : option string) (s : FileStore) : Z * option FpPrint :=
  let base_store := file_storage_get_basestore_for_username s username in
  let path := get_path_to_print dev finger base_store in
  let '(r, new) := load_from_file (files s) path in
  if negb (r =? 0)%Z then (r, None)
  else
    match new with
    | None => ((- EINVAL)%Z, None)   (* not reached: a zero result comes with a print *)
    | Some new =>
        (* "Make sure the username/finger matches our expectations." *)
        if negb (Nat.eqb (fp_print_get_finger new) finger) then ((- EINVAL)%Z, None)
        else if negb (g_strcmp0_eq (fp_print_get_username new) username)
        then ((- EINVAL)%Z, None)
        (* "And that the print is compatible with the device." *)
        else if negb (fp_print_compatible new dev) then ((- EINVAL)%Z, None)
        else (0%Z, Some new)
    end.

(** [scan_dev_storedir]: every accepted name is prepended to the list. *)
Fixpoint scan_dev_storedir_names (names : list string) (acc : list FpFinger)
    : list FpFinger :=
  match names with
  | [] => acc
  | ent :: rest =>
      match ent with
      | String c EmptyString =>
          (* "ent is an 1 hex character fp_finger code" *)
          match hex_value c with
          | Some val =>
              if FP_FINGER_IS_VALID val
              then scan_dev_storedir_names rest (val :: acc)
              else scan_dev_storedir_names rest acc
          | None => scan_dev_storedir_names rest acc
          end
      | _ => scan_dev_storedir_names rest acc
      end
  end.

Definition scan_dev_storedir (fs : FileSystem) (devpath : list string)
    (acc : list FpFinger) : list FpFinger :=
  match g_dir_read_names fs devpath with
  | None => acc
  | Some names => scan_dev_storedir_names names acc
  end.

Definition file_storage_discover_prints (dev : FpDevice) (username : option string)
    (s : FileStore) : list FpFinger :=
  let base_store := file_storage_get_basestore_for_username s username in
  let storedir := get_path_to_storedir (fp_device_get_driver dev)
                    (fp_device_get_device_id dev) base_store in
  scan_dev_storedir (files s) storedir [].

Definition file_storage_discover_users (s : FileStore) : list string :=
  match g_dir_read_names (files s) [(get_storage_path s).1] with
  | None => []
  | Some names =>
      (* "ent is a username": each one is prepended *)
      reverse (filter (fun ent => ent ≠ "") names)
  end.

Definition file_storage_print_data_save (print : FpPrint) (s : FileStore)
    : Z * FileStore :=
  let s := (get_storage_path s).2 in
  let base_store := file_storage_get_basestore_for_username s
                      (fp_print_get_username print) in
  match fp_print_serialize print with
  | None => ((- ENOMEM)%Z, s)
  | Some buf =>
      let path := __get_path_to_print (fp_print_get_driver print)
                    (fp_print_get_device_id print) (fp_print_get_finger print)
                    base_store in
      let dirpath := g_path_get_dirname path in
      let '(r, fs) := g_mkdir_with_parents (files s) dirpath in
      if (r <? 0)%Z then (r, with_files fs s)
      else
        match g_file_set_contents fs path buf with
        | (Some err, fs) => (g_file_error_code err, with_files fs s)
        | (None, fs) => (0%Z, with_files fs s)
        end
  end.

(** The [do ... while] of [file_storage_print_data_delete]: remove the
    ancestors of [dir] while they lie under [base_store] and are empty. *)
Fixpoint remove_empty_parents (fuel : nat) (base_store dir : list string)
    (fs : FileSystem) : FileSystem :=
  match fuel with
  | O => fs
  | Datatypes.S fuel' =>
      let dir := g_path_get_dirname dir in
      if bool_decide (base_store `prefix_of` dir) then
        match g_rmdir fs dir with
        | (0%Z, fs') => remove_empty_parents fuel' base_store dir fs'
        | (_, fs') => fs'
        end
      else fs
  end.

Definition file_storage_print_data_delete (dev : FpDevice) (finger : FpFinger)
    (username : option string) (s : FileStore) : Z * FileStore :=
  let s := (get_storage_path s).2 in
  let base_store := file_storage_get_basestore_for_username s username in
  let path := get_path_to_print_dscv dev finger base_store in
  if negb (g_file_test_exists (files s) path) then (0%Z, s)
  else
    let '(r, fs) := g_unlink (files s) path in
    let s := with_files fs s in
    match file_storage_discover_prints dev username s with
    | [] => (r, with_files (remove_empty_parents (length path) base_store path fs) s)
    | _ => (r, s)
    end.

(** The store [main.c] sets up by default. *)
#[global] Instance file_storage : fp_storage FileStore := {
  print_data_save := file_storage_print_data_save;
  print_data_load := file_storage_print_data_load;
  print_data_delete := file_storage_print_data_delete;
  discover_prints := file_storage_discover_prints;
  discover_users := file_storage_discover_users
}.
End FileStorage.

(** ** Observing an operation *)


(** The session's verify-status-reported flag. *)
Definition reported {St} (w : World St) : bool :=
  match _session (priv w) with
  | Some session => verify_status_reported session
  | None => false
  end.

Section Operation.
Context {St : Type} `{!fp_storage St} `{!Libfprint}.

End Operation.

(** The callback that ends the device operation in progress. *)
Inductive completes (p : FprintDevicePrivate) : MainLoopEvent -> Prop :=
| completes_verify matched error :
    current_action p = ACTION_VERIFY ->
    is_retry error = false ->
    completes p (Ev_verify_cb matched error)
| completes_identify matched error :
    current_action p = ACTION_IDENTIFY ->
    is_retry error = false ->
    completes p (Ev_identify_cb matched error).

(** The operation in progress has not completed: [verify_has_completed] is
    FALSE. *)
Definition in_flight (p : FprintDevicePrivate) : Prop :=
  current_cancellable p = Some false
  ∧ (current_action p = ACTION_VERIFY ∧ is_Some (verify_data p)
     ∨ current_action p = ACTION_IDENTIFY ∧ is_Some (identify_data p)).

(** The events of [match_cb], which the driver may deliver any number of
    times before it completes the operation. *)
Definition is_match_cb (ev : MainLoopEvent) : Prop :=
  match ev with Ev_match_cb _ _ => True | _ => False end.

(** Effects that only report or log. *)
Definition bystander (e : Effect) : Prop :=
  match e with
  | Warning | Critical | VerifyStatus _ _ => True
  | _ => False
  end.

(** ** Relations between the worlds before and after a step *)

Section Relations.
Context {St : Type}.
Implicit Types w : World St.





(** A computation that, when it returns, has moved the world along [R]. *)
Definition respects (R : relation (World St)) {A} (m : M St A) : Prop :=
  forall w a w', m w = Ok a w' -> R w w'.

(** A computation that returns in every world. *)
Definition total {A} (m : M St A) : Prop := forall w, ∃ a w', m w = Ok a w'.

(** Steps that leave the device object alone, up to the storage latch, and
    add only bystander effects. *)
Definition quiet : relation (World St) := fun w w' =>
  set_local_storage_checked (local_storage_checked (priv w)) (priv w') = priv w
  ∧ timeout_sources w' = timeout_sources w
  ∧ last_source_id w' = last_source_id w
  ∧ pending w' = pending w
  ∧ ∃ effects, out w' = (out w ++ effects)%list ∧ Forall bystander effects.

(** The state [fprint_device_verify_stop] waits in: a final status was
    reported, the operation is in flight, the stop invocation is parked and
    the timer [source] is armed. *)
Definition waiting (inv : GDBusMethodInvocation) (source : nat) w : Prop :=
  (∃ session, _session (priv w) = Some session
              ∧ verify_status_reported session = true)
  ∧ in_flight (priv w)
  ∧ current_cancel_invocation (priv w) = Some inv
  ∧ verify_stop_wait_timeout_id (priv w) = source
  ∧ source ≠ 0%nat
  ∧ source ∈ (timeout_sources w).*1.

End Relations.

(** ** A concrete setting for the examples

    A libfprint whose prints are equal when driver, device id and template
    agree, compatible with a device of the same driver and device id, and
    serialized through a fixed table. *)

#[global] Instance GDate_eq_dec : EqDecision GDate.
Proof. solve_decision. Defined.

#[global] Instance FpPrint_eq_dec : EqDecision FpPrint.
Proof. solve_decision. Defined.

Definition mk_print (user : string) (finger : FpFinger) (julian : Z) (data : list nat)
    : FpPrint :=
  {| fp_print_get_driver := "virtual_device_storage";
     fp_print_get_device_id := "0";
     fp_print_get_username := Some user;
     fp_print_get_finger := finger;
     fp_print_get_enroll_date := Some {| g_date_valid := true; g_date_get_julian := julian |};
     fp_print_get_device_stored := false;
     print_data := data |}.

Definition alice_thumb : FpPrint := mk_print "alice" FP_FINGER_LEFT_THUMB 738000 [1].
Definition alice_index : FpPrint := mk_print "alice" FP_FINGER_RIGHT_INDEX 738100 [2].
Definition bob_thumb : FpPrint := mk_print "bob" FP_FINGER_LEFT_THUMB 738200 [3].
Definition old_print : FpPrint := mk_print "carol" FP_FINGER_LEFT_THUMB 730000 [4].
Definition new_print : FpPrint := mk_print "carol" FP_FINGER_LEFT_INDEX 739000 [5].

Definition print_table : list (string * FpPrint) :=
  [ ("alice-thumb", alice_thumb); ("alice-index", alice_index);
    ("bob-thumb", bob_thumb); ("old", old_print); ("new", new_print) ].

Definition table_libfprint : Libfprint :=
  {| fp_print_equal p q :=
       g_str_equal (fp_print_get_driver p) (fp_print_get_driver q)
       && g_str_equal (fp_print_get_device_id p) (fp_print_get_device_id q)
       && bool_decide (print_data p = print_data q);
     fp_print_compatible p d :=
       g_str_equal (fp_print_get_driver p) (fp_device_get_driver d)
       && g_str_equal (fp_print_get_device_id p) (fp_device_get_device_id d);
     fp_print_serialize p :=
       fst <$> head (filter (fun e => e.2 = p) print_table);
     fp_print_deserialize s :=
       snd <$> head (filter (fun e => e.1 = s) print_table) |}.

Definition virtual_device (identify storage storage_list : bool) : FpDevice :=
  {| fp_device_get_driver := "virtual_device_storage";
     fp_device_get_device_id := "0";
     FP_DEVICE_FEATURE_IDENTIFY := identify;
     FP_DEVICE_FEATURE_STORAGE := storage;
     FP_DEVICE_FEATURE_STORAGE_LIST := storage_list |}.

(** An open device holding the given prints, whose driver never fails. *)
Definition holding (prints : list FpPrint) : FpDeviceState :=
  {| fp_device_is_open := true;
     device_prints := prints;
     list_prints_ok := true;
     delete_print_ok := fun _ => true;
     clear_storage_ok := true |}.

(** A store directory holding the given users' prints, under the default
    root. *)
Definition user_dir (user : string) : list (list string * Inode) :=
  [ ([FILE_STORAGE_PATH; user], Directory);
    ([FILE_STORAGE_PATH; user; "virtual_device_storage"], Directory);
    ([FILE_STORAGE_PATH; user; "virtual_device_storage"; "0"], Directory) ].

Definition print_file (user slot contents : string) : list string * Inode :=
  ([FILE_STORAGE_PATH; user; "virtual_device_storage"; "0"; slot], Regular true contents).

Definition store_of (fs : FileSystem) : FileStore :=
  {| storage_path := None; STATE_DIRECTORY := None;
     files := ([FILE_STORAGE_PATH], Directory) :: fs |}.

Definition alice_store : FileStore :=
  store_of (user_dir "alice" ++ [print_file "alice" "1" "alice-thumb";
                                   print_file "alice" "7" "alice-index"])%list.

Definition alice_one_print_store : FileStore :=
  store_of (user_dir "alice" ++ [print_file "alice" "1" "alice-thumb"])%list.

Definition empty_store : FileStore := store_of [].

(** Alice's left-thumb print, filed under the slot of her right index. *)
Definition misfiled_store : FileStore :=
  store_of (user_dir "alice" ++ [print_file "alice" "7" "alice-thumb"])%list.


Definition idle_priv (session : option SessionData) : FprintDevicePrivate :=
  {| id := 0; _session := session; local_storage_checked := false;
     verify_stop_wait_timeout_id := 0; clients := ∅;
     verify_data := None; identify_data := None; enroll_data := 0;
     current_action := ACTION_NONE; current_cancellable := None;
     current_cancel_invocation := None |}.

Definition alice_session : SessionData :=
  {| invocation := None; sender := ":1.42"; username := "alice";
     verify_status_reported := false |}.

Definition call (method sender : string) : GDBusMethodInvocation :=
  {| method_name := method; invocation_sender := sender;
     authorized_user := None; serial := 1 |}.

Definition world_of (p : FprintDevicePrivate) (d : FpDevice) (state : FpDeviceState)
    (s : FileStore) (events : list MainLoopEvent) : World FileStore :=
  {| priv := p; dev := d; driver := state; store_state := s; out := [];
     entropy := fun n => Z.of_nat (7 * n + 3); draws := 0;
     today := {| g_date_valid := true; g_date_get_julian := 739500 |};
     last_source_id := 0; timeout_sources := []; pending := events |}.

Definition alice_claimed : World FileStore :=
  world_of (idle_priv (Some alice_session)) (virtual_device true true true)
    (holding []) alice_store [].

Definition alice_one_print : World FileStore :=
  world_of (idle_priv (Some alice_session)) (virtual_device true true true)
    (holding []) alice_one_print_store [].

Definition alice_without_prints : World FileStore :=
  world_of (idle_priv (Some alice_session)) (virtual_device true true true)
    (holding [old_print]) empty_store [].

Definition nobody_without_prints : World FileStore :=
  world_of (idle_priv None) (virtual_device true true true)
    (holding [old_print]) empty_store [].

Definition legacy_call (sender user : string) : GDBusMethodInvocation :=
  {| method_name := "DeleteEnrolledFingers"; invocation_sender := sender;
     authorized_user := Some user; serial := 1 |}.

(** Alice's Verify against her left thumb, just started. *)
Definition alice_verifying (events : list MainLoopEvent) : World FileStore :=
  world_of
    {| id := 0; _session := Some alice_session; local_storage_checked := false;
       verify_stop_wait_timeout_id := 0; clients := ∅;
       verify_data := Some alice_thumb; identify_data := None; enroll_data := 0;
       current_action := ACTION_VERIFY; current_cancellable := Some false;
       current_cancel_invocation := None |}
    (virtual_device true true true) (holding [alice_thumb]) alice_one_print_store
    events.

Definition unclaimed : World FileStore :=
  world_of (idle_priv None) (virtual_device true true true) (holding []) alice_store [].

(** Alice's Verify once its final status has been reported. *)
Definition alice_reported (events : list MainLoopEvent) : World FileStore :=
  with_priv
    (set_session (Some (set_verify_status_reported true alice_session))
       (priv (alice_verifying events)))
    (alice_verifying events).

(** Carol's two prints on the device, the older one first; the host has
    neither. *)
Definition carol_on_device : World FileStore :=
  world_of (idle_priv (Some alice_session)) (virtual_device true true true)
    (holding [old_print; new_print]) alice_store [].

(** * Properties *)

(** Unfolds the monad's plumbing. *)
Ltac munfold :=
  unfold mbind, mret, M_bind, M_ret, when, emit, get_priv, get_dev, get_world,
    modify_priv, get_driver, modify_driver, put_store_state, put_draws,
    put_sources, g_assert,
    g_assert_failed, session_read, session_write, session_data_get in *.

(** Reduces the projections of an updated world. *)
Ltac wsimpl :=
  cbn [priv dev driver store_state out entropy draws today last_source_id
       timeout_sources pending with_priv with_driver with_store_state with_out
       with_draws with_sources with_pending
       id _session local_storage_checked verify_stop_wait_timeout_id clients
       verify_data identify_data enroll_data current_action current_cancellable
       current_cancel_invocation
       set_session set_local_storage_checked set_verify_stop_wait_timeout_id
       set_clients set_verify_data set_identify_data set_enroll_data
       set_current_action set_current_cancellable set_current_cancel_invocation
       invocation sender username verify_status_reported
       set_verify_status_reported set_invocation] in *.


(** ** Finger names *)

(** The ten anatomical slot names: FINGERS_NAMES[FP_FINGER_FIRST ..
    FP_FINGER_LAST]. *)
Lemma slot_names_listed :
  drop FP_FINGER_FIRST FINGERS_NAMES =
  [ "left-thumb"; "left-index-finger"; "left-middle-finger"; "left-ring-finger";
    "left-little-finger"; "right-thumb"; "right-index-finger";
    "right-middle-finger"; "right-ring-finger"; "right-little-finger" ].
Proof. reflexivity. Qed.

Lemma finger_name_scan_unknown (name : string) :
  name ∉ drop FP_FINGER_FIRST FINGERS_NAMES ->
  finger_name_scan name FP_FINGER_FIRST (S FP_FINGER_LAST - FP_FINGER_FIRST)
  = FP_FINGER_UNKNOWN.
Proof.
  rewrite slot_names_listed. intros Hnot.
  cbn [finger_name_scan FP_FINGER_FIRST FP_FINGER_LAST FP_FINGER_LEFT_THUMB
       FP_FINGER_RIGHT_LITTLE Nat.sub FINGERS_NAMES lookup list_lookup].
  unfold g_str_equal.
  repeat match goal with
  | |- context [String.eqb name ?c] =>
      destruct (String.eqb_spec name c) as [->|_];
      [ exfalso; apply Hnot; set_solver | ]
  end.
  reflexivity.
Qed.

Lemma unrecognized_name_is_unknown (name : string) :
  name ∉ drop FP_FINGER_FIRST FINGERS_NAMES ->
  finger_name_to_fp_finger (Some name) = FP_FINGER_UNKNOWN.
Proof.
  intros Hnot. unfold finger_name_to_fp_finger.
  destruct (_ || _); [reflexivity|].
  by apply finger_name_scan_unknown.
Qed.

Section FingerNames.
Context {St : Type} `{!fp_storage St} `{!Libfprint}.

(** C9. A finger name that is none of the ten anatomical slot names is
    parsed to the Unknown slot, exactly as "any", the empty string and NULL
    are. So VerifyStart with such a name does, in every state, what
    VerifyStart ("any") does; whereas EnrollStart and DeleteEnrolledFinger
    with it always fail: with InvalidFingername when the caller holds the
    claim, and with the claim-state error otherwise. *)
Theorem unrecognized_finger_name (name : string) (inv : GDBusMethodInvocation)
    (w : World St) :
  name ∉ drop FP_FINGER_FIRST FINGERS_NAMES ->
  finger_name_to_fp_finger (Some name) = FP_FINGER_UNKNOWN
  ∧ finger_name_to_fp_finger (Some "any") = FP_FINGER_UNKNOWN
  ∧ finger_name_to_fp_finger (Some "") = FP_FINGER_UNKNOWN
  ∧ finger_name_to_fp_finger None = FP_FINGER_UNKNOWN
  ∧ fprint_device_verify_start inv name w = fprint_device_verify_start inv "any" w
  ∧ (∃ e, fprint_device_enroll_start inv name w = emit (Return_error inv e) w
        ∧ fprint_device_delete_enrolled_finger inv name w = emit (Return_error inv e) w
        ∧ (_fprint_device_check_claimed (priv w) inv = None ->
           e = FPRINT_ERROR_INVALID_FINGERNAME)).
Proof.
  intros Hnot.
  pose proof (unrecognized_name_is_unknown name Hnot) as Hunk.
  repeat split; try reflexivity; try done.
  - unfold fprint_device_verify_start. rewrite Hunk. reflexivity.
  - unfold fprint_device_enroll_start, fprint_device_delete_enrolled_finger.
    rewrite Hunk. munfold.
    destruct (_fprint_device_check_claimed (priv w) inv) as [e|] eqn:Hc.
    + exists e. by repeat split.
    + exists FPRINT_ERROR_INVALID_FINGERNAME. by repeat split.
Qed.
End FingerNames.

Section FingerNamesExample.
#[local] Existing Instance table_libfprint.

Lemma unrecognized_finger_name_witness :
  fprint_device_verify_start (call "VerifyStart" ":1.42") "thumb" alice_claimed
  = fprint_device_verify_start (call "VerifyStart" ":1.42") "any" alice_claimed
  ∧ fprint_device_enroll_start (call "EnrollStart" ":1.42") "thumb" alice_claimed
    = emit (Return_error (call "EnrollStart" ":1.42") FPRINT_ERROR_INVALID_FINGERNAME)
        alice_claimed.
Proof.
  assert (Hnot : "thumb" ∉ drop FP_FINGER_FIRST FINGERS_NAMES).
  { apply (bool_decide_unpack _). by vm_compute. }
  split.
  - apply (unrecognized_finger_name "thumb" (call "VerifyStart" ":1.42")
             alice_claimed Hnot).
  - destruct (unrecognized_finger_name "thumb" (call "EnrollStart" ":1.42")
                alice_claimed Hnot) as (_ & _ & _ & _ & _ & e & He & _ & Hinv).
    rewrite He. rewrite Hinv; reflexivity.
Defined.
End FingerNamesExample.

(** ** Claim state *)

Lemma claimed_state_methods (inv : GDBusMethodInvocation) :
  method_name inv ∉ ["Claim"; "DeleteEnrolledFingers"; "ListEnrolledFingers"] ->
  get_claim_state_for_invocation inv = STATE_CLAIMED.
Proof.
  intros Hnot. unfold get_claim_state_for_invocation, g_str_equal.
  repeat match goal with
  | |- context [String.eqb (method_name inv) ?c] =>
      destruct (String.eqb_spec (method_name inv) c) as [Heq|_];
      [ exfalso; apply Hnot; rewrite Heq; set_solver | ]
  end.
  reflexivity.
Qed.

Section ClaimState.
Context {St : Type} `{!fp_storage St} `{!Libfprint}.

(** C7. Claim on a device that has a session fails with AlreadyInUse,
    whoever holds it: the check never looks at the session's sender. A
    method that needs the claim (any but Claim, DeleteEnrolledFingers and
    ListEnrolledFingers; VerifyStart for one) fails with ClaimDevice on a
    device without a session. In both cases the handler only replies. *)
Theorem claim_state_violations (inv : GDBusMethodInvocation) (w : World St) :
  (forall session username,
     method_name inv = "Claim" ->
     _session (priv w) = Some session ->
     _fprint_device_check_claimed (priv w) inv = Some FPRINT_ERROR_ALREADY_IN_USE
     ∧ fprint_device_claim inv username w
       = emit (Return_error inv FPRINT_ERROR_ALREADY_IN_USE) w)
  ∧ (forall finger_name,
     method_name inv ∉ ["Claim"; "DeleteEnrolledFingers"; "ListEnrolledFingers"] ->
     _session (priv w) = None ->
     _fprint_device_check_claimed (priv w) inv = Some FPRINT_ERROR_CLAIM_DEVICE
     ∧ fprint_device_verify_start inv finger_name w
       = emit (Return_error inv FPRINT_ERROR_CLAIM_DEVICE) w).
Proof.
  split.
  - intros session username Hm Hs.
    assert (Hc : _fprint_device_check_claimed (priv w) inv
                 = Some FPRINT_ERROR_ALREADY_IN_USE).
    { unfold _fprint_device_check_claimed, get_claim_state_for_invocation.
      rewrite Hm, Hs. reflexivity. }
    split; [exact Hc|].
    unfold fprint_device_claim. munfold. by rewrite Hc.
  - intros finger_name Hm Hs.
    assert (Hc : _fprint_device_check_claimed (priv w) inv
                 = Some FPRINT_ERROR_CLAIM_DEVICE).
    { unfold _fprint_device_check_claimed.
      rewrite (claimed_state_methods inv Hm), Hs. reflexivity. }
    split; [exact Hc|].
    unfold fprint_device_verify_start. munfold. by rewrite Hc.
Qed.
End ClaimState.

Section ClaimStateExample.
#[local] Existing Instance table_libfprint.

(** Alice's own second Claim, Bob's Claim, and a VerifyStart nobody
    prepared with a Claim. *)
Lemma claim_state_violations_witness :
  fprint_device_claim (call "Claim" ":1.42") "" alice_claimed
  = emit (Return_error (call "Claim" ":1.42") FPRINT_ERROR_ALREADY_IN_USE) alice_claimed
  ∧ fprint_device_claim (call "Claim" ":1.77") "" alice_claimed
    = emit (Return_error (call "Claim" ":1.77") FPRINT_ERROR_ALREADY_IN_USE) alice_claimed
  ∧ fprint_device_verify_start (call "VerifyStart" ":1.42") "right-index-finger"
      unclaimed
    = emit (Return_error (call "VerifyStart" ":1.42") FPRINT_ERROR_CLAIM_DEVICE)
        unclaimed.
Proof.
  split; [|split].
  - apply (proj1 (claim_state_violations (call "Claim" ":1.42") alice_claimed)
             alice_session ""); reflexivity.
  - apply (proj1 (claim_state_violations (call "Claim" ":1.77") alice_claimed)
             alice_session ""); reflexivity.
  - apply (proj2 (claim_state_violations (call "VerifyStart" ":1.42") unclaimed)
             "right-index-finger"); [|reflexivity].
    apply (bool_decide_unpack _). by vm_compute.
Defined.
End ClaimStateExample.

(** ** Device lookup *)

Lemma get_default_device_is_last_aux (objects : list FprintDBusObjectSkeleton)
    (object : FprintDBusObjectSkeleton) :
  fprint_manager_get_default_device (objects ++ [object])
  = inr (get_device_path object)
  ∧ handle_get_default_device (objects ++ [object])
    = Manager_complete_get_default_device (get_device_path object).
Proof.
  unfold handle_get_default_device, fprint_manager_get_default_device.
  rewrite last_snoc, length_app. cbn [length].
  replace (length objects + 1) with (S (length objects)) by lia.
  split; reflexivity.
Qed.

(** C8. GetDefaultDevice fails with NoSuchDevice when the object manager
    enumerates no device, and otherwise returns the path of the last device
    of that enumeration. *)
Theorem get_default_device_is_last :
  fprint_manager_get_default_device [] = inl FPRINT_ERROR_NO_SUCH_DEVICE
  ∧ handle_get_default_device [] = Manager_return_error FPRINT_ERROR_NO_SUCH_DEVICE
  ∧ (forall objects object,
       fprint_manager_get_default_device (objects ++ [object])
       = inr (get_device_path object)
       ∧ handle_get_default_device (objects ++ [object])
         = Manager_complete_get_default_device (get_device_path object)).
Proof.
  split; [reflexivity|]. split; [reflexivity|].
  apply get_default_device_is_last_aux.
Qed.

(** GetDevices lists the same enumeration in reverse, so the default device
    is the first path GetDevices returns. *)
Lemma default_device_heads_get_devices (objects : list FprintDBusObjectSkeleton) :
  match fprint_manager_get_default_device objects with
  | inr device => head (fprint_manager_get_devices objects) = Some device
  | inl _ => fprint_manager_get_devices objects = []
  end.
Proof.
  destruct objects as [|o objects _] using rev_ind; [reflexivity|].
  destruct (get_default_device_is_last_aux objects o) as [-> _].
  unfold fprint_manager_get_devices. by rewrite reverse_snoc.
Qed.


(** ** The file store's root directory *)










(** ** Loading from the file store *)

Section FileStorageLoad.
Context `{!Libfprint}.

(** C6. [load (dev, finger, user)] on the file backend: with no file at the
    path of the identity tuple it returns -ENOENT and no print; with a file
    that deserializes to a print of another finger, of another user, or not
    compatible with the device, it returns -EINVAL and no print. (And a
    print that passes the three checks is returned.) *)
Theorem file_storage_load_rejects (dev : FpDevice) (finger : FpFinger)
    (username : option string) (s : FileStore) :
  let path := get_path_to_print dev finger
                (file_storage_get_basestore_for_username s username) in
  (fs_lookup (files s) path = None ->
     file_storage_print_data_load dev finger username s = ((- ENOENT)%Z, None))
  ∧ (forall contents new,
       fs_lookup (files s) path = Some (Regular true contents) ->
       fp_print_deserialize contents = Some new ->
       (fp_print_get_finger new ≠ finger
        ∨ fp_print_get_username new ≠ username
        ∨ fp_print_compatible new dev = false ->
        file_storage_print_data_load dev finger username s = ((- EINVAL)%Z, None))
       ∧ (fp_print_get_finger new = finger ->
          fp_print_get_username new = username ->
          fp_print_compatible new dev = true ->
          file_storage_print_data_load dev finger username s = (0%Z, Some new))).
Proof.
  intros path. unfold file_storage_print_data_load, load_from_file,
    g_file_get_contents. fold path.
  split.
  - intros ->. reflexivity.
  - intros contents new -> ->. cbn [negb Z.eqb].
    assert (Hname : g_strcmp0_eq (fp_print_get_username new) username = true
                    <-> fp_print_get_username new = username).
    { unfold g_strcmp0_eq.
      destruct (fp_print_get_username new) as [x|], username as [y|];
        try (split; [discriminate|congruence]); [|done].
      destruct (String.eqb_spec x y); split; congruence. }
    split.
    + intros Hbad.
      destruct (Nat.eqb_spec (fp_print_get_finger new) finger) as [Hf|Hf];
        [|reflexivity]. cbn [negb].
      destruct (g_strcmp0_eq (fp_print_get_username new) username) eqn:Hu;
        [|reflexivity]. cbn [negb].
      destruct (fp_print_compatible new dev) eqn:Hcompat; [|reflexivity].
      destruct Hbad as [?|[Hbad|?]]; [done| |done].
      exfalso. apply Hbad. by apply Hname.
    + intros Hf Hu Hcompat.
      rewrite (proj2 (Nat.eqb_eq _ _) Hf), (proj2 Hname Hu), Hcompat. reflexivity.
Qed.
(** A print the backend hands out matches what it was asked for. *)
Lemma file_storage_load_matches (dev : FpDevice) (finger : FpFinger)
    (username : option string) (s : FileStore) (print : FpPrint) :
  (file_storage_print_data_load dev finger username s).2 = Some print ->
  fp_print_get_finger print = finger
  ∧ g_strcmp0_eq (fp_print_get_username print) username = true
  ∧ fp_print_compatible print dev = true.
Proof.
  unfold file_storage_print_data_load.
  destruct (load_from_file _ _) as [r new].
  destruct (negb (r =? 0)%Z); [discriminate|].
  destruct new as [new|]; [|discriminate].
  destruct (Nat.eqb_spec (fp_print_get_finger new) finger); [|discriminate].
  destruct (g_strcmp0_eq _ _) eqn:Hu; [|discriminate].
  destruct (fp_print_compatible new dev) eqn:Hcompat; [|discriminate].
  cbn. intros [= <-]. done.
Qed.

Lemma scan_dev_storedir_names_valid (names : list string) (acc : list FpFinger) :
  Forall (fun f => FP_FINGER_IS_VALID f = true) acc ->
  Forall (fun f => FP_FINGER_IS_VALID f = true) (scan_dev_storedir_names names acc).
Proof.
  revert acc. induction names as [|ent names IH]; intros acc Hacc; [done|].
  cbn [scan_dev_storedir_names].
  destruct ent as [|c [|]]; try by apply IH.
  destruct (hex_value c) as [val|]; [|by apply IH].
  destruct (FP_FINGER_IS_VALID val) eqn:Hv; apply IH; [|done].
  by constructor.
Qed.

Lemma file_storage_discover_prints_valid (dev : FpDevice) (username : option string)
    (s : FileStore) :
  Forall (fun f => FP_FINGER_IS_VALID f = true)
    (file_storage_discover_prints dev username s).
Proof.
  unfold file_storage_discover_prints, scan_dev_storedir.
  destruct (g_dir_read_names _ _); [|done].
  by apply scan_dev_storedir_names_valid.
Qed.

(** Every print the file backend puts in a gallery sits in a real slot, and
    is recorded for the user it was loaded for. *)
Lemma file_storage_gallery_real_slots (w : World FileStore) (username : option string) :
  Forall (fun print => fp_print_get_finger print ≠ FP_FINGER_UNKNOWN
                       ∧ g_strcmp0_eq (fp_print_get_username print) username = true)
    (load_user_prints w username).
Proof.
  unfold load_user_prints.
  pose proof (file_storage_discover_prints_valid (dev w) username (store_state w))
    as Hvalid.
  cbn [discover_prints print_data_load file_storage] in *.
  induction Hvalid as [|finger fingers Hf _ IH]; [constructor|].
  cbn [omap list_omap].
  destruct (file_storage_print_data_load _ _ _ _).2 as [print|] eqn:Hload; [|exact IH].
  constructor; [|exact IH].
  apply file_storage_load_matches in Hload as (<- & Hu & _).
  split; [|done]. intros Heq. rewrite Heq in Hf. discriminate.
Qed.
End FileStorageLoad.

Section FileStorageLoadExample.
#[local] Existing Instance table_libfprint.

(** Bob has no file for his left thumb; the file under Alice's slot 7 holds
    her left-thumb print. *)
Lemma file_storage_load_rejects_witness :
  file_storage_print_data_load (virtual_device true true true)
    FP_FINGER_LEFT_THUMB (Some "bob") alice_store = ((- ENOENT)%Z, None)
  ∧ file_storage_print_data_load (virtual_device true true true)
      FP_FINGER_RIGHT_INDEX (Some "alice") misfiled_store = ((- EINVAL)%Z, None).
Proof.
  split.
  - apply (proj1 (file_storage_load_rejects (virtual_device true true true)
                    FP_FINGER_LEFT_THUMB (Some "bob") alice_store)).
    reflexivity.
  - apply (proj2 (file_storage_load_rejects (virtual_device true true true)
                    FP_FINGER_RIGHT_INDEX (Some "alice") misfiled_store)
             "alice-thumb" alice_thumb); [reflexivity|reflexivity|].
    left. discriminate.
Defined.
End FileStorageLoadExample.


(** ** VerifyStart ("any") *)

Section VerifyStart.
Context {St : Type} `{!fp_storage St} `{!Libfprint}.

(** C2, as the code has it. VerifyStart ("any") by the claimant with no
    action in progress, the gallery being the prints the store loads for
    the session's user: an empty gallery fails with NoEnrolledPrints; a
    gallery of exactly one print (of a real finger slot) starts Verify
    against that print, also on a device that supports identify, and
    VerifyFingerSelected names that print's finger; a gallery of two or
    more on a device that supports identify starts Identify across the
    whole gallery and VerifyFingerSelected says "any". *)
Theorem verify_start_any (inv : GDBusMethodInvocation) (w : World St)
    (session : SessionData) :
  _fprint_device_check_claimed (priv w) inv = None ->
  can_start_action (priv w) = None ->
  _session (priv w) = Some session ->
  let gallery := load_user_prints w (Some (username session)) in
  (gallery = [] ->
     fprint_device_verify_start inv "any" w
     = emit (Return_error inv FPRINT_ERROR_NO_ENROLLED_PRINTS) w)
  ∧ (forall print, gallery = [print] ->
       fp_print_get_finger print ≠ FP_FINGER_UNKNOWN ->
       ∃ w', fprint_device_verify_start inv "any" w = Ok tt w'
         ∧ current_action (priv w') = ACTION_VERIFY
         ∧ verify_data (priv w') = Some print
         ∧ identify_data (priv w') = identify_data (priv w)
         ∧ current_cancellable (priv w') = Some false
         ∧ out w' = (out w ++ [Call_verify (Some print); Complete inv;
                     VerifyFingerSelected (fp_finger_to_name (fp_print_get_finger print))])%list)
  ∧ (FP_DEVICE_FEATURE_IDENTIFY (dev w) = true -> (2 <= length gallery)%nat ->
       ∃ w', fprint_device_verify_start inv "any" w = Ok tt w'
         ∧ current_action (priv w') = ACTION_IDENTIFY
         ∧ identify_data (priv w') = Some gallery
         ∧ verify_data (priv w') = verify_data (priv w)
         ∧ current_cancellable (priv w') = Some false
         ∧ out w' = (out w ++ [Call_identify (Some gallery) For_verify; Complete inv;
                     VerifyFingerSelected (Some "any")])%list).
Proof.
  intros Hc Hs Hsess gallery.
  unfold fprint_device_verify_start.
  change (finger_name_to_fp_finger (Some "any")) with FP_FINGER_UNKNOWN.
  munfold. rewrite Hc, Hs, Hsess.
  change (Nat.eqb FP_FINGER_UNKNOWN FP_FINGER_UNKNOWN) with true. cbv beta iota.
  fold gallery. clearbody gallery.
  split; [|split].
  - intros ->. reflexivity.
  - intros print -> Hfinger.
    destruct (Nat.eqb_spec (fp_print_get_finger print) FP_FINGER_UNKNOWN) as [|_];
      [done|].
    rewrite andb_false_r. cbn [head].
    eexists. split; [reflexivity|].
    cbn. by rewrite <- !app_assoc.
  - intros -> Hlen.
    destruct gallery as [|p1 [|p2 rest]]; [cbn in Hlen; lia..|].
    cbn [andb Nat.eqb FP_FINGER_UNKNOWN].
    eexists. split; [reflexivity|].
    cbn. by rewrite <- !app_assoc.
Qed.
End VerifyStart.

Section VerifyStartExample.
#[local] Existing Instance table_libfprint.

(** C2 as stated fails: on a device that supports identify, a user with
    one enrolled print (so "at least one") gets Verify, not Identify. *)
Lemma verify_start_one_print_is_not_identify :
  FP_DEVICE_FEATURE_IDENTIFY (dev alice_one_print) = true
  ∧ load_user_prints alice_one_print (Some "alice") = [alice_thumb]
  ∧ ∃ w', fprint_device_verify_start (call "VerifyStart" ":1.42") "any" alice_one_print
          = Ok tt w'
     ∧ current_action (priv w') = ACTION_VERIFY
     ∧ identify_data (priv w') = None
     ∧ out w' = [Call_verify (Some alice_thumb); Complete (call "VerifyStart" ":1.42");
                 VerifyFingerSelected (Some "left-thumb")].
Proof.
  split; [reflexivity|]. split; [reflexivity|].
  eexists. split; [lazy; reflexivity|]. by repeat split.
Qed.

Lemma verify_start_any_witness :
  (∃ w', fprint_device_verify_start (call "VerifyStart" ":1.42") "any" alice_one_print
         = Ok tt w'
     ∧ current_action (priv w') = ACTION_VERIFY
     ∧ verify_data (priv w') = Some alice_thumb)
  ∧ (∃ w', fprint_device_verify_start (call "VerifyStart" ":1.42") "any" alice_claimed
           = Ok tt w'
       ∧ current_action (priv w') = ACTION_IDENTIFY
       ∧ identify_data (priv w') = Some [alice_index; alice_thumb]).
Proof.
  split.
  - destruct (verify_start_any (call "VerifyStart" ":1.42") alice_one_print
                alice_session eq_refl eq_refl eq_refl) as (_ & Hone & _).
    destruct (Hone alice_thumb eq_refl) as (w' & Hrun & Ha & Hd & _);
      [discriminate|].
    exists w'. by repeat split.
  - destruct (verify_start_any (call "VerifyStart" ":1.42") alice_claimed
                alice_session eq_refl eq_refl eq_refl) as (_ & _ & Hmany).
    destruct (Hmany eq_refl) as (w' & Hrun & Ha & Hd & _); [vm_compute; lia|].
    exists w'. by repeat split.
Defined.
End VerifyStartExample.


(** ** Deleting when nothing is enrolled *)

Lemma can_start_action_none (p : FprintDevicePrivate) :
  can_start_action p = None <-> current_action p = ACTION_NONE.
Proof. unfold can_start_action. destruct (current_action p); split; congruence. Qed.

Lemma set_current_action_same (p : FprintDevicePrivate) :
  set_current_action (current_action p) p = p.
Proof. by destruct p. Qed.

Lemma set_current_action_twice (a b : FprintDeviceAction) (p : FprintDevicePrivate) :
  set_current_action a (set_current_action b p) = set_current_action a p.
Proof. reflexivity. Qed.

Lemma with_priv_same {St} (w : World St) : with_priv (priv w) w = w.
Proof. by destruct w. Qed.

Section DeleteNothing.
Context {St : Type} `{!fp_storage St} `{!Libfprint}.

Lemma delete_enrolled_fingers_not_enrolled (w : World St) (user : string)
    (finger : FpFinger) :
  user_has_print_enrolled w user finger = false ->
  delete_enrolled_fingers user finger w = Ok (Some FPRINT_ERROR_NO_ENROLLED_PRINTS) w.
Proof. intros Hno. unfold delete_enrolled_fingers. munfold. by rewrite Hno. Qed.

Lemma action_unset_after_reply (w : World St) (e : Effect) :
  current_action (priv w) = ACTION_NONE ->
  with_priv (set_current_action ACTION_NONE
               (priv (with_out (out w ++ [e])
                        (with_priv (set_current_action ACTION_DELETE (priv w)) w))))
    (with_out (out w ++ [e])
       (with_priv (set_current_action ACTION_DELETE (priv w)) w))
  = with_out (out w ++ [e]) w.
Proof.
  intros Ha. destruct w as [p d s o en dr t l ts pe]. destruct p.
  cbn in *. subst. reflexivity.
Qed.

Lemma claimed_delete_without_prints (inv : GDBusMethodInvocation) (w : World St)
    (session : SessionData) :
  _fprint_device_check_claimed (priv w) inv = None ->
  can_start_action (priv w) = None ->
  _session (priv w) = Some session ->
  let prints := discover_prints (dev w) (Some (username session)) (store_state w) in
  (forall finger_name,
     finger_name_to_fp_finger (Some finger_name) ≠ FP_FINGER_UNKNOWN ->
     finger_name_to_fp_finger (Some finger_name) ∉ prints ->
     fprint_device_delete_enrolled_finger inv finger_name w
     = emit (Return_error inv FPRINT_ERROR_NO_ENROLLED_PRINTS) w)
  ∧ (prints = [] ->
     fprint_device_delete_enrolled_fingers2 inv w
     = emit (Return_error inv FPRINT_ERROR_NO_ENROLLED_PRINTS) w).
Proof.
  intros Hc Hs Hsess prints. apply can_start_action_none in Hs as Ha.
  split.
  - intros finger_name Hknown Hnot.
    unfold fprint_device_delete_enrolled_finger, with_action_unset. munfold.
    rewrite Hc, Hs.
    destruct (Nat.eqb_spec (finger_name_to_fp_finger (Some finger_name))
                FP_FINGER_UNKNOWN) as [|_]; [done|].
    cbn [priv with_priv _session set_current_action]. rewrite Hsess.
    rewrite delete_enrolled_fingers_not_enrolled.
    2:{ unfold user_has_print_enrolled. cbn [dev store_state with_priv].
        fold prints.
        destruct (Nat.eqb_spec (finger_name_to_fp_finger (Some finger_name))
                    FP_FINGER_UNKNOWN) as [|_]; [done|].
        by apply bool_decide_eq_false. }
    f_equal. exact (action_unset_after_reply w _ Ha).
  - intros Hnone.
    unfold fprint_device_delete_enrolled_fingers2, with_action_unset. munfold.
    rewrite Hc, Hs.
    cbn [priv with_priv _session set_current_action]. rewrite Hsess.
    rewrite delete_enrolled_fingers_not_enrolled.
    2:{ unfold user_has_print_enrolled. cbn [dev store_state with_priv].
        fold prints. rewrite Hnone. reflexivity. }
    f_equal. exact (action_unset_after_reply w _ Ha).
Qed.

Lemma legacy_delete_without_prints (inv : GDBusMethodInvocation) (w : World St)
    (username user : string) :
  can_start_action (priv w) = None ->
  (_fprint_device_check_claimed (priv w) inv = None
   ∨ _fprint_device_check_claimed (priv w) inv = Some FPRINT_ERROR_CLAIM_DEVICE) ->
  authorized_user inv = Some user ->
  (username = "" ∨ username = user) ->
  discover_prints (dev w) (Some user) (store_state w) = [] ->
  ∃ w' effects,
    fprint_device_delete_enrolled_fingers inv username w = Ok tt w'
    ∧ out w' = (out w ++ effects)%list
    ∧ last effects = Some (Return_error inv FPRINT_ERROR_NO_ENROLLED_PRINTS)
    ∧ (forall print, Call_delete_print print ∉ effects)
    ∧ store_state w' = store_state w
    ∧ device_prints (driver w') = device_prints (driver w)
    ∧ current_action (priv w') = ACTION_NONE.
Proof.
  intros Hs Hc Huser Hname Hnone.
  assert (Hassert : g_str_equal username "" || g_str_equal user username = true).
  { unfold g_str_equal. destruct Hname as [->| ->]; [reflexivity|].
    rewrite String.eqb_refl. apply orb_true_r. }
  assert (Hdel : forall w1 : World St,
            dev w1 = dev w -> store_state w1 = store_state w ->
            delete_enrolled_fingers user FP_FINGER_UNKNOWN w1
            = Ok (Some FPRINT_ERROR_NO_ENROLLED_PRINTS) w1).
  { intros w1 Hd Hst. apply delete_enrolled_fingers_not_enrolled.
    unfold user_has_print_enrolled. by rewrite Hd, Hst, Hnone. }
  unfold fprint_device_delete_enrolled_fingers, with_action_unset,
    _fprint_device_add_client, fp_device_open_sync, fp_device_close_sync.
  munfold. wsimpl. rewrite Hs, Huser, Hassert. wsimpl.
  destruct Hc as [-> | ->];
    try rewrite bool_decide_eq_true_2 by reflexivity; cbv beta; wsimpl;
    match goal with |- context [Nat.eqb ?a ?b] => destruct (Nat.eqb a b) end;
    destruct (FP_DEVICE_FEATURE_STORAGE (dev w));
    try destruct (fp_device_is_open (driver w));
    cbn [negb andb]; munfold; wsimpl; rewrite Hdel by reflexivity; wsimpl;
    (eexists _, _; split; [reflexivity|]; wsimpl;
     rewrite <- ?app_assoc; cbn [app];
     split; [reflexivity|]; split; [reflexivity|];
     split; [|by repeat split];
     intros print Hin;
     repeat (apply elem_of_cons in Hin as [Hin|Hin]; [discriminate|]);
     by apply elem_of_nil in Hin).
Qed.

(** C10. With the claim held and no action in progress, DeleteEnrolledFinger
    for a slot the store does not list for the session's user, and
    DeleteEnrolledFingers2 when the store lists nothing for that user, do
    nothing but reply NoEnrolledPrints: the world is otherwise unchanged.
    The legacy DeleteEnrolledFingers, for an authorized user the store lists
    nothing for, ends by replying NoEnrolledPrints too; it may watch the
    caller and open and close the device around the attempt, but it asks the
    driver to delete nothing and leaves the store and the device's prints as
    they were. *)
Theorem delete_without_prints (inv : GDBusMethodInvocation) (w : World St) :
  (forall session,
     _fprint_device_check_claimed (priv w) inv = None ->
     can_start_action (priv w) = None ->
     _session (priv w) = Some session ->
     let prints := discover_prints (dev w) (Some (username session)) (store_state w) in
     (forall finger_name,
        finger_name_to_fp_finger (Some finger_name) ≠ FP_FINGER_UNKNOWN ->
        finger_name_to_fp_finger (Some finger_name) ∉ prints ->
        fprint_device_delete_enrolled_finger inv finger_name w
        = emit (Return_error inv FPRINT_ERROR_NO_ENROLLED_PRINTS) w)
     ∧ (prints = [] ->
        fprint_device_delete_enrolled_fingers2 inv w
        = emit (Return_error inv FPRINT_ERROR_NO_ENROLLED_PRINTS) w))
  ∧ (forall username user,
     can_start_action (priv w) = None ->
     (_fprint_device_check_claimed (priv w) inv = None
      ∨ _fprint_device_check_claimed (priv w) inv = Some FPRINT_ERROR_CLAIM_DEVICE) ->
     authorized_user inv = Some user ->
     (username = "" ∨ username = user) ->
     discover_prints (dev w) (Some user) (store_state w) = [] ->
     ∃ w' effects,
       fprint_device_delete_enrolled_fingers inv username w = Ok tt w'
       ∧ out w' = (out w ++ effects)%list
       ∧ last effects = Some (Return_error inv FPRINT_ERROR_NO_ENROLLED_PRINTS)
       ∧ (forall print, Call_delete_print print ∉ effects)
       ∧ store_state w' = store_state w
       ∧ device_prints (driver w') = device_prints (driver w)
       ∧ current_action (priv w') = ACTION_NONE).
Proof.
  split.
  - intros session. apply claimed_delete_without_prints.
  - intros username user. apply legacy_delete_without_prints.
Qed.
End DeleteNothing.

Section DeleteNothingExample.
#[local] Existing Instance table_libfprint.

Lemma delete_without_prints_witness :
  fprint_device_delete_enrolled_finger (call "DeleteEnrolledFinger" ":1.42")
    "left-thumb" alice_without_prints
  = emit (Return_error (call "DeleteEnrolledFinger" ":1.42")
            FPRINT_ERROR_NO_ENROLLED_PRINTS) alice_without_prints
  ∧ fprint_device_delete_enrolled_fingers2 (call "DeleteEnrolledFingers2" ":1.42")
      alice_without_prints
    = emit (Return_error (call "DeleteEnrolledFingers2" ":1.42")
              FPRINT_ERROR_NO_ENROLLED_PRINTS) alice_without_prints
  ∧ ∃ w', fprint_device_delete_enrolled_fingers (legacy_call ":1.77" "bob") ""
            nobody_without_prints = Ok tt w'
       ∧ device_prints (driver w') = [old_print].
Proof.
  destruct (delete_without_prints (call "DeleteEnrolledFinger" ":1.42")
              alice_without_prints) as [Hclaimed _].
  destruct (delete_without_prints (call "DeleteEnrolledFingers2" ":1.42")
              alice_without_prints) as [Hclaimed2 _].
  destruct (delete_without_prints (legacy_call ":1.77" "bob")
              nobody_without_prints) as [_ Hlegacy].
  split; [|split].
  - destruct (Hclaimed alice_session eq_refl eq_refl eq_refl) as [Hfinger _].
    apply Hfinger; [discriminate|]. vm_compute. apply not_elem_of_nil.
  - destruct (Hclaimed2 alice_session eq_refl eq_refl eq_refl) as [_ Hall].
    by apply Hall.
  - destruct (Hlegacy "" "bob" eq_refl (or_introl eq_refl) eq_refl
                (or_introl eq_refl) eq_refl)
      as (w' & effects & Hrun & _ & _ & _ & _ & Hprints & _).
    exists w'. split; [exact Hrun|exact Hprints].
Defined.
End DeleteNothingExample.


(** ** The verify-status-reported flag *)


Lemma bind_Ok {St A B} (m : M St A) (f : A -> M St B) (w w' : World St) (b : B) :
  (m ≫= f) w = Ok b w' <-> ∃ a w1, m w = Ok a w1 ∧ f a w1 = Ok b w'.
Proof.
  unfold mbind, M_bind. split.
  - destruct (m w) as [a w1| |]; [|discriminate..]. intros Hf. by exists a, w1.
  - intros (a & w1 & -> & Hf). exact Hf.
Qed.

Section ReportedOnce.
Context {St : Type} `{!fp_storage St} `{!Libfprint}.
Implicit Types w : World St.
































End ReportedOnce.

Section ReportedOnceExample.
#[local] Existing Instance table_libfprint.

End ReportedOnceExample.


(** ** VerifyStop and the settle window *)

Section Respects.
Context {St : Type} `{!fp_storage St} `{!Libfprint}.
Implicit Types w : World St.

Lemma total_ret {A} (a : A) : total (St := St) (mret a).
Proof. intros w. by exists a, w. Qed.

Lemma total_bind {A B} (m : M St A) (f : A -> M St B) :
  total m -> (forall a, total (f a)) -> total (m ≫= f).
Proof.
  intros Hm Hf w. destruct (Hm w) as (a & w1 & H1).
  destruct (Hf a w1) as (b & w' & H2). exists b, w'. apply bind_Ok. eauto.
Qed.

Lemma total_when (b : bool) (m : M St unit) : total m -> total (when b m).
Proof. destruct b; [done|]. intros _. apply total_ret. Qed.

Lemma total_emit e : total (emit (S := St) e).
Proof. intros w. by eexists _, _. Qed.

Lemma total_get_world : total (get_world (S := St)).
Proof. intros w. by eexists _, _. Qed.

Lemma total_get_priv : total (get_priv (S := St)).
Proof. intros w. by eexists _, _. Qed.

Lemma total_get_dev : total (get_dev (S := St)).
Proof. intros w. by eexists _, _. Qed.

Lemma total_get_driver : total (get_driver (S := St)).
Proof. intros w. by eexists _, _. Qed.

Lemma total_put_store_state s : total (put_store_state (S := St) s).
Proof. intros w. by eexists _, _. Qed.

Lemma total_modify_priv f : total (modify_priv (S := St) f).
Proof. intros w. by eexists _, _. Qed.

Lemma total_check_local_storage_loop device_prints host_prints :
  total (check_local_storage_loop device_prints host_prints).
Proof.
  induction host_prints as [|print rest IH]; [apply total_ret|].
  cbn [check_local_storage_loop].
  apply total_bind; [|intros _; exact IH].
  destruct (g_ptr_array_find device_prints print); [apply total_ret|].
  apply total_bind; [apply total_get_world|intros w].
  destruct (print_data_delete _ _ _ _) as [r s'].
  apply total_bind; [apply total_put_store_state|intros _].
  apply total_when, total_emit.
Qed.

Lemma total_check_local_storage found_match error :
  total (check_local_storage found_match error).
Proof.
  unfold check_local_storage.
  apply total_bind; [apply total_get_priv|intros p].
  apply total_bind; [apply total_get_dev|intros d].
  apply total_bind; [apply total_get_driver|intros state].
  assert (Hgo : total
            (modify_priv (set_local_storage_checked true);;
             match fp_device_list_prints_sync state with
             | Some device_prints =>
                 w ← get_world;
                 check_local_storage_loop device_prints (load_all_prints w)
             | None => emit Warning
             end)).
  { apply total_bind; [by apply total_modify_priv|intros _].
    destruct (fp_device_list_prints_sync state).
    - apply total_bind; [apply total_get_world|intros w].
      apply total_check_local_storage_loop.
    - by apply total_emit. }
  destruct (negb _); [by apply total_emit|].
  destruct (negb _); [apply total_ret|].
  destruct (is_data_not_found error).
  { apply total_bind; [|intros _; exact Hgo]. by apply total_when, total_emit. }
  destruct (_ || _); [apply total_ret|].
  destruct (negb found_match); [exact Hgo|apply total_ret].
Qed.

Section Along.
Variable R : relation (World St).
Context `{!PreOrder R}.

Lemma respects_ret {A} (a : A) : respects R (mret a).
Proof. by intros w a' w' [= _ <-]. Qed.

Lemma respects_bind {A B} (m : M St A) (f : A -> M St B) :
  respects R m -> (forall a, respects R (f a)) -> respects R (m ≫= f).
Proof.
  intros Hm Hf w b w' (a & w1 & H1 & H2)%bind_Ok.
  etrans; [eapply Hm|eapply Hf]; eassumption.
Qed.

Lemma respects_when (b : bool) (m : M St unit) : respects R m -> respects R (when b m).
Proof. destruct b; [done|]. intros _. apply respects_ret. Qed.

Lemma respects_get_world : respects R (get_world (S := St)).
Proof. by intros w a w' [= _ <-]. Qed.

Lemma respects_get_priv : respects R (get_priv (S := St)).
Proof. by intros w a w' [= _ <-]. Qed.

Lemma respects_get_dev : respects R (get_dev (S := St)).
Proof. by intros w a w' [= _ <-]. Qed.

Lemma respects_get_driver : respects R (get_driver (S := St)).
Proof. by intros w a w' [= _ <-]. Qed.

(** What [check_local_storage] does to the world: it sets its latch, writes
    to the store and logs. *)
Hypothesis R_latch : respects R (modify_priv (set_local_storage_checked true)).
Hypothesis R_store : forall s, respects R (put_store_state s).
Hypothesis R_warning : respects R (emit Warning).
Hypothesis R_critical : respects R (emit Critical).

Lemma respects_check_local_storage_loop device_prints host_prints :
  respects R (check_local_storage_loop device_prints host_prints).
Proof.
  induction host_prints as [|print rest IH]; [apply respects_ret|].
  cbn [check_local_storage_loop].
  apply respects_bind; [|intros _; exact IH].
  destruct (g_ptr_array_find device_prints print); [apply respects_ret|].
  apply respects_bind; [apply respects_get_world|intros w].
  destruct (print_data_delete _ _ _ _) as [r s'].
  apply respects_bind; [apply R_store|intros _].
  by apply respects_when.
Qed.

Lemma respects_check_local_storage found_match error :
  respects R (check_local_storage found_match error).
Proof.
  unfold check_local_storage.
  apply respects_bind; [apply respects_get_priv|intros p].
  apply respects_bind; [apply respects_get_dev|intros d].
  apply respects_bind; [apply respects_get_driver|intros state].
  assert (Hgo : respects R
            (modify_priv (set_local_storage_checked true);;
             match fp_device_list_prints_sync state with
             | Some device_prints =>
                 w ← get_world;
                 check_local_storage_loop device_prints (load_all_prints w)
             | None => emit Warning
             end)).
  { apply respects_bind; [done|intros _].
    destruct (fp_device_list_prints_sync state); [|done].
    apply respects_bind; [apply respects_get_world|intros w].
    apply respects_check_local_storage_loop. }
  destruct (negb _); [done|].
  destruct (negb _); [apply respects_ret|].
  destruct (is_data_not_found error).
  { apply respects_bind; [|intros _; exact Hgo]. by apply respects_when. }
  destruct (_ || _); [apply respects_ret|].
  destruct (negb found_match); [exact Hgo|apply respects_ret].
Qed.
End Along.
End Respects.

Section SettleWindow.
Context {St : Type} `{!fp_storage St} `{!Libfprint}.
Implicit Types w : World St.

#[local] Instance quiet_preorder : PreOrder (quiet (St := St)).
Proof.
  split.
  - intros w. repeat split; [by destruct (priv w)|].
    exists []. by rewrite app_nil_r.
  - intros w1 w2 w3 (Hp12 & Hs12 & Hl12 & Hq12 & e12 & Ho12 & He12)
      (Hp23 & Hs23 & Hl23 & Hq23 & e23 & Ho23 & He23).
    repeat split; try congruence.
    + rewrite <- Hp12 at 2. rewrite <- Hp23. by destruct (priv w3).
    + exists (e12 ++ e23)%list. rewrite Ho23, Ho12, app_assoc.
      split; [done|by apply Forall_app].
Qed.

Lemma quiet_emit w e : bystander e -> quiet w (with_out (out w ++ [e]) w).
Proof.
  intros He. unfold quiet. cbn. repeat split; [by destruct (priv w)|].
  exists [e]. split; [done|by constructor].
Qed.

Lemma quiet_fields w w' :
  quiet w w' ->
  _session (priv w') = _session (priv w)
  ∧ current_action (priv w') = current_action (priv w)
  ∧ current_cancellable (priv w') = current_cancellable (priv w)
  ∧ current_cancel_invocation (priv w') = current_cancel_invocation (priv w)
  ∧ verify_stop_wait_timeout_id (priv w') = verify_stop_wait_timeout_id (priv w)
  ∧ verify_data (priv w') = verify_data (priv w)
  ∧ identify_data (priv w') = identify_data (priv w).
Proof. intros (Hp & _). rewrite <- Hp. by destruct (priv w'). Qed.

Lemma quiet_check_local_storage found_match error :
  respects quiet (check_local_storage found_match error).
Proof.
  apply respects_check_local_storage; [apply _|..].
  - intros w a w' [= _ <-]. unfold quiet. cbn.
    repeat split; [by destruct (priv w)|].
    exists []. by rewrite app_nil_r.
  - intros s w a w' [= _ <-]. unfold quiet. cbn.
    repeat split; [by destruct (priv w)|].
    exists []. by rewrite app_nil_r.
  - intros w a w' [= _ <-]. by apply quiet_emit.
  - intros w a w' [= _ <-]. by apply quiet_emit.
Qed.

(** A final report once the flag is set: ignored. *)
Lemma report_verify_status_ignored w session matched error :
  _session (priv w) = Some session ->
  verify_status_reported session = true ->
  is_retry error = false ->
  report_verify_status matched error w
  = Ok tt (if is_cancelled error then w else with_out (out w ++ [Warning]) w).
Proof.
  intros Hs Hr Hretry.
  unfold report_verify_status. munfold. rewrite Hretry. cbn [negb andb].
  rewrite Hs, Hr. by destruct (is_cancelled error).
Qed.

(** While waiting, a match callback only reports or logs. *)
Lemma match_cb_waiting inv source w matched error :
  waiting inv source w ->
  ∃ e, bystander e ∧ match_cb matched error w = Ok tt (with_out (out w ++ [e]) w).
Proof.
  intros ((session & Hs & Hr) & (Hc & _) & _).
  unfold match_cb. munfold. rewrite Hc.
  destruct error as [code|]; cbn [fmap option_fmap option_map].
  - eexists. split; [|reflexivity]. done.
  - rewrite (report_verify_status_ignored w session) by done.
    exists Warning. by split.
Qed.

(** The parked invocation is answered when a stoppable action completes. *)
Lemma stoppable_action_completed_parked inv w session :
  current_cancel_invocation (priv w) = Some inv ->
  current_action (priv w) = ACTION_VERIFY ∨ current_action (priv w) = ACTION_IDENTIFY ->
  _session (priv w) = Some session ->
  ∃ w', stoppable_action_completed w = Ok tt w'
        ∧ out w' = (out w ++ [Complete inv])%list
        ∧ current_action (priv w') = ACTION_NONE
        ∧ current_cancellable (priv w') = None
        ∧ current_cancel_invocation (priv w') = None
        ∧ verify_stop_wait_timeout_id (priv w') = verify_stop_wait_timeout_id (priv w)
        ∧ timeout_sources w' = timeout_sources w
        ∧ last_source_id w' = last_source_id w
        ∧ pending w' = pending w.
Proof.
  intros Hinv Ha Hs.
  unfold stoppable_action_completed. munfold. rewrite Hinv.
  destruct Ha as [-> | ->]; cbn; rewrite Hs; cbn; eexists; (split; [reflexivity|]);
    cbn; done.
Qed.

(** The common end of [verify_cb] and [identify_cb] while a stop invocation
    is parked and the final status was reported. *)
Lemma completion_end inv w session found error :
  _session (priv w) = Some session ->
  verify_status_reported session = true ->
  current_cancel_invocation (priv w) = Some inv ->
  current_action (priv w) = ACTION_VERIFY ∨ current_action (priv w) = ACTION_IDENTIFY ->
  is_retry error = false ->
  ∃ w' effects,
    (when (bool_decide (is_Some error))
       (report_verify_status false error;;
        when (negb (is_cancelled error)) (emit Warning));;
     check_local_storage found error;;
     stoppable_action_completed) w = Ok tt w'
    ∧ out w' = (out w ++ effects ++ [Complete inv])%list
    ∧ Forall bystander effects
    ∧ current_action (priv w') = ACTION_NONE
    ∧ current_cancellable (priv w') = None
    ∧ current_cancel_invocation (priv w') = None
    ∧ verify_stop_wait_timeout_id (priv w') = verify_stop_wait_timeout_id (priv w)
    ∧ timeout_sources w' = timeout_sources w
    ∧ last_source_id w' = last_source_id w
    ∧ pending w' = pending w.
Proof.
  intros Hs Hr Hinv Ha Hretry.
  assert (∃ w2, when (bool_decide (is_Some error))
                  (report_verify_status false error;;
                   when (negb (is_cancelled error)) (emit Warning)) w = Ok tt w2
                ∧ quiet w w2) as (w2 & Hrun2 & Hq2).
  { destruct error as [e|]; [|by exists w].
    rewrite bool_decide_eq_true_2 by done. cbn [when].
    destruct (is_cancelled (Some e)) eqn:Hc.
    - exists w. split; [|done]. apply bind_Ok. exists tt, w.
      rewrite (report_verify_status_ignored w session) by done.
      by rewrite Hc.
    - exists (with_out ((out w ++ [Warning]) ++ [Warning]) w). split.
      + apply bind_Ok. exists tt, (with_out (out w ++ [Warning]) w).
        rewrite (report_verify_status_ignored w session) by done.
        by rewrite Hc.
      + etrans; [by apply (quiet_emit w Warning)|].
        by apply (quiet_emit (with_out (out w ++ [Warning]) w) Warning). }
  destruct (total_check_local_storage found error w2) as ([] & w3 & Hrun3).
  pose proof (quiet_check_local_storage found error w2 tt w3 Hrun3) as Hq3.
  assert (Hq : quiet w w3) by (etrans; eassumption).
  destruct (quiet_fields _ _ Hq) as (Hs3 & Ha3 & _ & Hinv3 & Hid3 & _).
  destruct Hq as (_ & Hsrc & Hlast & Hpend & effects & Hout & Heff).
  destruct (stoppable_action_completed_parked inv w3 session)
    as (w' & Hrun & Hout' & Hrest); [congruence..|].
  exists w', effects. split.
  { apply bind_Ok. exists tt, w2. split; [exact Hrun2|].
    apply bind_Ok. exists tt, w3. split; [exact Hrun3|exact Hrun]. }
  rewrite Hout', Hout, <- app_assoc. split; [done|]. split; [done|].
  destruct Hrest as (? & ? & ? & ? & ? & ? & ?). repeat split; congruence.
Qed.

(** With a stop invocation parked, the completion of the operation answers
    it and ends the action. *)
Lemma completion_parked inv w session ev :
  _session (priv w) = Some session ->
  verify_status_reported session = true ->
  current_cancel_invocation (priv w) = Some inv ->
  completes (priv w) ev ->
  ∃ w' effects,
    dispatch ev w = Ok tt w'
    ∧ out w' = (out w ++ effects ++ [Complete inv])%list
    ∧ Forall bystander effects
    ∧ current_action (priv w') = ACTION_NONE
    ∧ current_cancellable (priv w') = None
    ∧ current_cancel_invocation (priv w') = None
    ∧ verify_stop_wait_timeout_id (priv w') = verify_stop_wait_timeout_id (priv w)
    ∧ timeout_sources w' = timeout_sources w
    ∧ last_source_id w' = last_source_id w
    ∧ pending w' = pending w.
Proof.
  intros Hs Hr Hinv Hev.
  destruct Hev as [matched error Ha Hretry|matched error Ha Hretry]; cbn [dispatch].
  - destruct (completion_end inv (with_priv (set_verify_data None (priv w)) w)
                session matched error) as (w' & effects & Hrun & Hrest);
      [done..|by left|done|].
    exists w', effects. split; [|done].
    unfold verify_cb. munfold. rewrite Hretry. exact Hrun.
  - destruct (completion_end inv (with_priv (set_identify_data None (priv w)) w)
                session (bool_decide (is_Some matched)) error)
      as (w' & effects & Hrun & Hrest); [done..|by right|done|].
    exists w', effects. split; [|done].
    unfold identify_cb. munfold. rewrite Hretry. exact Hrun.
Qed.

Lemma in_flight_not_completed w :
  in_flight (priv w) -> verify_has_completed w = Ok false w.
Proof.
  intros (Hc & Hflight). unfold verify_has_completed. munfold. rewrite Hc.
  destruct Hflight as [[-> Hdata]|[-> Hdata]];
    by rewrite bool_decide_eq_true_2 by done.
Qed.

(** One turn of the wait loop while waiting: the next event is dispatched. *)
Lemma verify_stop_wait_iterate inv source w ev rest fuel w1 :
  waiting inv source w ->
  pending w = ev :: rest ->
  dispatch ev (with_pending rest w) = Ok tt w1 ->
  verify_stop_wait (Datatypes.S fuel) w = verify_stop_wait fuel w1.
Proof.
  intros (_ & (Hc & Hflight) & _ & Hid & Hne & _) Hpend Hrun.
  cbn [verify_stop_wait]. unfold verify_has_completed, g_main_context_iteration.
  munfold. rewrite Hid.
  destruct source as [|n]; [done|]. cbn [Nat.eqb negb andb]. rewrite Hc.
  destruct Hflight as [[-> Hdata]|[-> Hdata]];
    rewrite bool_decide_eq_true_2 by done; cbn [negb andb];
    by rewrite Hpend, Hrun.
Qed.

(** The wait loop ends once the timer's id is zero or the operation is over. *)
Lemma verify_stop_wait_done fuel w :
  verify_stop_wait_timeout_id (priv w) = 0%nat ∨ current_cancellable (priv w) = None ->
  verify_stop_wait (Datatypes.S fuel) w = Ok tt w.
Proof.
  intros Hend. cbn [verify_stop_wait]. unfold verify_has_completed. munfold.
  destruct Hend as [Hid|Hc]; [by rewrite Hid|].
  destruct (Nat.eqb _ 0); [done|]. cbn [negb andb]. by rewrite Hc.
Qed.

Lemma waiting_ext inv source w w' :
  priv w' = priv w -> timeout_sources w' = timeout_sources w ->
  waiting inv source w -> waiting inv source w'.
Proof. unfold waiting. by intros -> ->. Qed.

(** The wait loop over the match callbacks that precede the decisive event:
    they only report or log, and the wait goes on. *)
Lemma verify_stop_wait_reports inv source reports :
  forall w tail fuel,
  waiting inv source w ->
  pending w = (reports ++ tail)%list ->
  Forall is_match_cb reports ->
  ∃ w1 effects,
    verify_stop_wait (length reports + fuel) w = verify_stop_wait fuel w1
    ∧ priv w1 = priv w
    ∧ timeout_sources w1 = timeout_sources w
    ∧ last_source_id w1 = last_source_id w
    ∧ pending w1 = tail
    ∧ out w1 = (out w ++ effects)%list
    ∧ Forall bystander effects.
Proof.
  induction reports as [|ev reports IH]; intros w tail fuel Hw Hpend Hreports.
  { exists w, []. by rewrite app_nil_r. }
  apply Forall_cons in Hreports as [Hev Hreports].
  destruct ev as [|matched error| |]; try done.
  assert (Hw0 : waiting inv source (with_pending (reports ++ tail) w))
    by (by apply (waiting_ext inv source w)).
  destruct (match_cb_waiting inv source _ matched error Hw0) as (e & He & Hrun).
  destruct (IH (with_out (out w ++ [e]) (with_pending (reports ++ tail) w)) tail fuel)
    as (w1 & effects & Hloop & Hp & Hsrc & Hlast & Hpend1 & Hout & Heff);
    [by apply (waiting_ext inv source w)|done..|].
  exists w1, (e :: effects). cbn [length Nat.add].
  rewrite (verify_stop_wait_iterate inv source w _ _ _ _ Hw Hpend Hrun).
  repeat split; try done.
  - rewrite Hout. cbn. by rewrite <- app_assoc.
  - by constructor.
Qed.

(** What [fprint_device_verify_stop] does once the timer is armed and the
    invocation parked. *)
#[local] Abbreviation settle inv fuel :=
  (verify_stop_wait fuel;;
   clear_verify_stop_wait_timeout_id;;
   p' ← get_priv;
   match current_cancel_invocation p' with
   | None => mret tt
   | Some _ =>
       modify_priv (set_current_cancel_invocation None);;
       stoppable_action_stop inv
   end).

Lemma can_stop_action_in_flight p :
  in_flight p -> current_cancel_invocation p = None ->
  can_stop_action p ACTION_VERIFY = None.
Proof.
  intros (_ & Hflight) Hinv. unfold can_stop_action. rewrite Hinv.
  by destruct Hflight as [[-> _]|[-> _]].
Qed.

(** Up to the wait loop: the timer is armed for [VERIFY_STOP_DEVICE_WAIT]
    seconds and the invocation is parked. *)
Lemma verify_stop_arms_timer inv w session :
  _fprint_device_check_claimed (priv w) inv = None ->
  _session (priv w) = Some session ->
  verify_status_reported session = true ->
  in_flight (priv w) ->
  current_cancel_invocation (priv w) = None ->
  verify_stop_wait_timeout_id (priv w) = 0%nat ->
  let source := Datatypes.S (last_source_id w) in
  ∃ w0,
    fprint_device_verify_stop inv w
    = settle inv (Datatypes.S (length (pending w))) w0
    ∧ waiting inv source w0
    ∧ current_action (priv w0) = current_action (priv w)
    ∧ pending w0 = pending w
    ∧ out w0 = (out w ++ [Timeout_add_seconds VERIFY_STOP_DEVICE_WAIT source])%list.
Proof.
  intros Hclaim Hs Hr Hflight Hinv Hid source.
  eexists. split.
  { unfold fprint_device_verify_stop. munfold.
    rewrite Hclaim, (can_stop_action_in_flight _ Hflight Hinv).
    unfold verify_has_completed. munfold.
    destruct Hflight as (Hc & Hflight). rewrite Hc.
    destruct Hflight as [[Ha Hdata]|[Ha Hdata]]; rewrite Ha;
      rewrite bool_decide_eq_true_2 by done; cbn [negb andb];
      rewrite Hs, Hr; cbn [negb andb]; rewrite Hid, Hinv; cbn [Nat.eqb];
      rewrite bool_decide_eq_true_2 by done;
      unfold g_timeout_add_seconds; munfold; wsimpl; reflexivity. }
  unfold waiting, in_flight in *. wsimpl. repeat split; try done.
  - by exists session.
  - by destruct Hflight.
  - by destruct Hflight.
  - rewrite fmap_app. apply elem_of_app. right. by left.
Qed.

Lemma source_removed (source : nat) (sources : list (nat * Z)) :
  source ∉ (filter (fun s => s.1 ≠ source) sources).*1.
Proof.
  intros ([id interval] & -> & [Hne _]%list_elem_of_filter)%list_elem_of_fmap.
  by apply Hne.
Qed.

(** The device completes the operation before the timer fires. *)
Lemma settle_completes inv source w0 reports ev rest :
  waiting inv source w0 ->
  pending w0 = (reports ++ ev :: rest)%list ->
  Forall is_match_cb reports ->
  completes (priv w0) ev ->
  ∃ w' effects,
    settle inv (Datatypes.S (length (pending w0))) w0 = Ok tt w'
    ∧ out w' = (out w0 ++ effects ++ [Complete inv])%list
    ∧ Forall bystander effects
    ∧ current_action (priv w') = ACTION_NONE
    ∧ current_cancellable (priv w') = None
    ∧ current_cancel_invocation (priv w') = None
    ∧ verify_stop_wait_timeout_id (priv w') = 0%nat
    ∧ (source ∉ (timeout_sources w').*1)
    ∧ pending w' = rest.
Proof.
  intros Hw Hpend Hreports Hev.
  destruct (verify_stop_wait_reports inv source reports w0 (ev :: rest)
              (Datatypes.S (Datatypes.S (length rest))) Hw Hpend Hreports)
    as (w1 & eff1 & Hloop & Hp1 & Hsrc1 & Hlast1 & Hpend1 & Hout1 & Heff1).
  assert (Hw1 : waiting inv source w1) by (by apply (waiting_ext inv source w0)).
  destruct Hw as ((session & Hs & Hr) & _ & Hinv & Hid & Hne & _).
  destruct (completion_parked inv (with_pending rest w1) session ev)
    as (w2 & eff2 & Hrun2 & Hout2 & Heff2 & Ha2 & Hc2 & Hinv2 & Hid2 & Hsrc2 & Hlast2 & Hpend2);
    [wsimpl; by rewrite ?Hp1..|].
  cbn [priv with_pending] in Hid2. rewrite Hp1, Hid in Hid2.
  eexists _, (eff1 ++ eff2)%list. split.
  { rewrite Hpend, length_app. cbn [length].
    replace (Datatypes.S (length reports + Datatypes.S (length rest)))
      with (length reports + Datatypes.S (Datatypes.S (length rest)))%nat by lia.
    apply bind_Ok. exists tt, w2. split.
    { rewrite Hloop, (verify_stop_wait_iterate inv source w1 ev rest _ w2) by done.
      apply verify_stop_wait_done. by right. }
    unfold clear_verify_stop_wait_timeout_id, g_source_remove. munfold.
    rewrite Hid2. destruct source as [|n]; [done|]. cbn [Nat.eqb]. wsimpl.
    rewrite Hinv2. reflexivity. }
  wsimpl. rewrite Hout2. wsimpl. rewrite Hout1, <- !app_assoc.
  repeat split; try done.
  - by apply Forall_app.
  - apply source_removed.
Qed.

(** The timer fires before the device completes the operation. *)
Lemma settle_expires inv source w0 reports rest :
  waiting inv source w0 ->
  pending w0 = (reports ++ Ev_timeout source :: rest)%list ->
  Forall is_match_cb reports ->
  ∃ w' effects,
    settle inv (Datatypes.S (length (pending w0))) w0 = Ok tt w'
    ∧ out w' = (out w0 ++ effects ++ [Call_cancel])%list
    ∧ Forall bystander effects
    ∧ _session (priv w') = _session (priv w0)
    ∧ current_action (priv w') = current_action (priv w0)
    ∧ current_cancellable (priv w') = Some true
    ∧ current_cancel_invocation (priv w') = Some inv
    ∧ verify_stop_wait_timeout_id (priv w') = 0%nat
    ∧ (source ∉ (timeout_sources w').*1)
    ∧ pending w' = rest.
Proof.
  intros Hw Hpend Hreports.
  destruct (verify_stop_wait_reports inv source reports w0 (Ev_timeout source :: rest)
              (Datatypes.S (Datatypes.S (length rest))) Hw Hpend Hreports)
    as (w1 & eff1 & Hloop & Hp1 & Hsrc1 & Hlast1 & Hpend1 & Hout1 & Heff1).
  assert (Hw1 : waiting inv source w1) by (by apply (waiting_ext inv source w0)).
  destruct Hw as (_ & (Hc & _) & Hinv & Hid & Hne & Hin).
  assert (∃ w2, dispatch (Ev_timeout source) (with_pending rest w1) = Ok tt w2
                ∧ priv w2 = set_verify_stop_wait_timeout_id 0 (priv w0)
                ∧ out w2 = out w1 ∧ pending w2 = rest
                ∧ source ∉ (timeout_sources w2).*1)
    as (w2 & Hrun2 & Hp2 & Hout2 & Hpend2 & Hsrc2).
  { eexists. split.
    - cbn [dispatch]. unfold verify_stop_wait_timeout, g_source_remove. munfold.
      wsimpl. rewrite bool_decide_eq_true_2 by (by rewrite Hsrc1). reflexivity.
    - wsimpl. rewrite Hp1. repeat split. apply source_removed. }
  eexists _, eff1. split.
  { rewrite Hpend, length_app. cbn [length].
    replace (Datatypes.S (length reports + Datatypes.S (length rest)))
      with (length reports + Datatypes.S (Datatypes.S (length rest)))%nat by lia.
    apply bind_Ok. exists tt, w2. split.
    { rewrite Hloop, (verify_stop_wait_iterate inv source w1 _ rest _ w2) by done.
      apply verify_stop_wait_done. left. by rewrite Hp2. }
    unfold clear_verify_stop_wait_timeout_id, stoppable_action_stop. munfold.
    rewrite Hp2. wsimpl. cbn [Nat.eqb]. rewrite Hp2. wsimpl. rewrite Hinv.
    rewrite bool_decide_eq_true_2 by done. wsimpl. rewrite Hp2. wsimpl.
    rewrite Hc. reflexivity. }
  wsimpl. rewrite Hout2, Hout1, <- !app_assoc.
  repeat split; done.
Qed.

(** C4. VerifyStop after a final status was reported and before the device
    operation has completed: the cancellation is put off behind a timer of
    [VERIFY_STOP_DEVICE_WAIT] = 1 second.  While the wait lasts, match
    callbacks only report or log.  When the device completes the operation
    before the timer fires, VerifyStop is answered at that completion, no
    cancellation is requested and the timer is removed.  When the timer fires
    first, the operation is cancelled, VerifyStop is not answered yet, and the
    callback that then completes the operation answers it. *)
Theorem verify_stop_settle_window inv w session :
  _fprint_device_check_claimed (priv w) inv = None ->
  _session (priv w) = Some session ->
  verify_status_reported session = true ->
  in_flight (priv w) ->
  current_cancel_invocation (priv w) = None ->
  verify_stop_wait_timeout_id (priv w) = 0%nat ->
  let source := Datatypes.S (last_source_id w) in
  VERIFY_STOP_DEVICE_WAIT = 1%Z
  ∧ (forall reports ev rest,
       pending w = (reports ++ ev :: rest)%list ->
       Forall is_match_cb reports ->
       completes (priv w) ev ->
       ∃ w' effects,
         fprint_device_verify_stop inv w = Ok tt w'
         ∧ out w' = (out w ++ Timeout_add_seconds 1 source :: effects
                       ++ [Complete inv])%list
         ∧ Forall bystander effects
         ∧ current_action (priv w') = ACTION_NONE
         ∧ current_cancel_invocation (priv w') = None
         ∧ (source ∉ (timeout_sources w').*1)
         ∧ pending w' = rest)
  ∧ (forall reports rest,
       pending w = (reports ++ Ev_timeout source :: rest)%list ->
       Forall is_match_cb reports ->
       ∃ w' effects,
         fprint_device_verify_stop inv w = Ok tt w'
         ∧ out w' = (out w ++ Timeout_add_seconds 1 source :: effects
                       ++ [Call_cancel])%list
         ∧ Forall bystander effects
         ∧ current_action (priv w') = current_action (priv w)
         ∧ current_cancellable (priv w') = Some true
         ∧ current_cancel_invocation (priv w') = Some inv
         ∧ pending w' = rest
         ∧ forall ev, completes (priv w') ev ->
             ∃ w'' effects',
               dispatch ev w' = Ok tt w''
               ∧ out w'' = (out w' ++ effects' ++ [Complete inv])%list
               ∧ Forall bystander effects'
               ∧ current_action (priv w'') = ACTION_NONE).
Proof.
  intros Hclaim Hs Hr Hflight Hinv Hid source.
  destruct (verify_stop_arms_timer inv w session Hclaim Hs Hr Hflight Hinv Hid)
    as (w0 & Hrun0 & Hw0 & Ha0 & Hpend0 & Hout0).
  fold source in Hw0, Hout0. rewrite <- Hpend0 in Hrun0.
  split; [reflexivity|]. split.
  - intros reports ev rest Hpend Hreports Hev.
    destruct (settle_completes inv source w0 reports ev rest)
      as (w' & effects & Hrun & Hout & Heff & Ha & _ & Hinv' & _ & Hsrc & Hrest);
      [done|congruence|done| |].
    { destruct Hev; constructor; congruence. }
    exists w', effects. rewrite Hrun0, Hout, Hout0, <- app_assoc. by repeat split.
  - intros reports rest Hpend Hreports.
    destruct (settle_expires inv source w0 reports rest)
      as (w' & effects & Hrun & Hout & Heff & Hs' & Ha & Hc & Hinv' & _ & _ & Hrest);
      [done|congruence|done|].
    exists w', effects. split; [by rewrite Hrun0|].
    split; [by rewrite Hout, Hout0, <- app_assoc|].
    repeat split; try done; [congruence|].
    intros ev Hev.
    destruct Hw0 as ((session0 & Hs0 & Hr0) & _).
    destruct (completion_parked inv w' session0 ev)
      as (w'' & effects' & Hrun' & Hout' & Heff' & Ha' & _); [congruence|done..|].
    by exists w'', effects'.
Qed.
End SettleWindow.

Section SettleWindowExample.
#[local] Existing Instance table_libfprint.

Lemma verify_stop_settle_window_witness :
  (∃ w' effects,
     fprint_device_verify_stop (call "VerifyStop" ":1.42")
       (alice_reported [Ev_match_cb None None; Ev_verify_cb true None]) = Ok tt w'
     ∧ out w' = (Timeout_add_seconds 1 1 :: effects
                   ++ [Complete (call "VerifyStop" ":1.42")])%list
     ∧ Forall bystander effects
     ∧ current_action (priv w') = ACTION_NONE)
  ∧ (∃ w' effects,
       fprint_device_verify_stop (call "VerifyStop" ":1.42")
         (alice_reported [Ev_timeout 1; Ev_verify_cb true None]) = Ok tt w'
       ∧ out w' = (Timeout_add_seconds 1 1 :: effects ++ [Call_cancel])%list
       ∧ current_cancel_invocation (priv w') = Some (call "VerifyStop" ":1.42")
       ∧ pending w' = [Ev_verify_cb true None]).
Proof.
  assert (Hflight : forall events, in_flight (priv (alice_reported events))).
  { intros events. split; [reflexivity|]. left. split; [reflexivity|]. by eexists. }
  split.
  - destruct (verify_stop_settle_window (call "VerifyStop" ":1.42")
                (alice_reported [Ev_match_cb None None; Ev_verify_cb true None])
                _ eq_refl eq_refl eq_refl (Hflight _) eq_refl eq_refl)
      as (_ & Hcompletes & _).
    destruct (Hcompletes [Ev_match_cb None None] (Ev_verify_cb true None) [])
      as (w' & effects & Hrun & Hout & Heff & Ha & _); [reflexivity| |by constructor|].
    { by repeat constructor. }
    exists w', effects. by repeat split.
  - destruct (verify_stop_settle_window (call "VerifyStop" ":1.42")
                (alice_reported [Ev_timeout 1; Ev_verify_cb true None])
                _ eq_refl eq_refl eq_refl (Hflight _) eq_refl eq_refl)
      as (_ & _ & Hexpires).
    destruct (Hexpires [] [Ev_verify_cb true None])
      as (w' & effects & Hrun & Hout & _ & _ & _ & Hinv & Hrest & _);
      [reflexivity|constructor|].
    exists w', effects. by repeat split.
Defined.
End SettleWindowExample.


(** ** On-device garbage collection *)

Lemma guint32_diff_to_gint_small (a b : Z) :
  (0 <= a < 2147483648)%Z -> (0 <= b < 2147483648)%Z ->
  guint32_diff_to_gint a b = (a - b)%Z.
Proof.
  intros Ha Hb. unfold guint32_diff_to_gint.
  destruct (Z.ltb_spec (a - b) 0) as [Hneg|Hpos].
  - replace ((a - b) `mod` 4294967296)%Z with (a - b + 4294967296)%Z.
    + destruct (Z.ltb_spec (a - b + 4294967296) 2147483648); lia.
    + rewrite <- (Z_mod_plus_full (a - b) 1 4294967296).
      rewrite Z.mod_small; lia.
  - rewrite Z.mod_small by lia.
    destruct (Z.ltb_spec (a - b) 2147483648); lia.
Qed.

(** [garbage_collect_sort] puts the print with the later enrollment date
    first. *)
Lemma garbage_collect_sort_newer_first objects stream a b st print_a print_b :
  objects !! a = Some print_a ->
  objects !! b = Some print_b ->
  (0 <= julian_of print_a < 2147483648)%Z ->
  (0 <= julian_of print_b < 2147483648)%Z ->
  julian_of print_a ≠ julian_of print_b ->
  garbage_collect_sort objects stream a b st
  = ((julian_of print_b - julian_of print_a)%Z, st).
Proof.
  intros Ha Hb Hra Hrb Hne. unfold garbage_collect_sort.
  rewrite Ha, Hb. cbn [fmap option_fmap option_map default from_option]. unfold Datatypes.id.
  destruct (Z.eqb_spec (julian_of print_a) (julian_of print_b)); [done|].
  cbn [negb]. by rewrite guint32_diff_to_gint_small by lia.
Qed.

Section GarbageCollect.
Context {St : Type} `{!fp_storage St} `{!Libfprint}.
Implicit Types w : World St.

Lemma remove_host_prints_none device_prints host_prints :
  Forall (fun host => g_ptr_array_find device_prints host = None) host_prints ->
  remove_host_prints device_prints host_prints = device_prints.
Proof.
  induction 1 as [|host rest Hhost _ IH]; [done|].
  cbn [remove_host_prints]. by rewrite Hhost.
Qed.

(** C1. With two prints on the device that the host does not hold,
    enrolled on different days, garbage collection deletes the one enrolled
    later: the comparison sorts the newer print first, and the first print
    of the sorted array is the one deleted. *)
Theorem try_delete_print_deletes_newest w older newer :
  list_prints_ok (driver w) = true ->
  device_prints (driver w) = [older; newer] ∨ device_prints (driver w) = [newer; older] ->
  (0 <= julian_of older)%Z ->
  (julian_of older < julian_of newer)%Z ->
  (julian_of newer < 2147483648)%Z ->
  Forall (fun host => fp_print_equal older host = false
                      ∧ fp_print_equal newer host = false) (load_all_prints w) ->
  delete_print_ok (driver w) newer = true ->
  ∃ w', try_delete_print w = Ok true w'
        ∧ out w' = (out w ++ [Call_delete_print newer])%list
        ∧ device_prints (driver w')
          = filter (fun q => fp_print_equal q newer = false) (device_prints (driver w)).
Proof.
  intros Hlist Hprints Hlo Hlt Hhi Hhost Hdelete.
  assert (Hsorted : forall objects,
    objects = [older; newer] ∨ objects = [newer; older] ->
    ∃ order st,
      g_ptr_array_sort (garbage_collect_sort objects (entropy w))
        (seq 0 (length objects)) (∅, draws w) = (order, st)
      ∧ omap (fun obj => objects !! obj) order = [newer; older]).
  { intros objects [-> | ->]; cbn [length seq g_ptr_array_sort sort_insert].
    - rewrite (garbage_collect_sort_newer_first _ _ 0 1 _ older newer)
        by (done || lia).
      destruct (Z.leb_spec (julian_of newer - julian_of older) 0); [lia|].
      by eexists _, _.
    - rewrite (garbage_collect_sort_newer_first _ _ 0 1 _ newer older)
        by (done || lia).
      destruct (Z.leb_spec (julian_of older - julian_of newer) 0); [|lia].
      by eexists _, _. }
  destruct (Hsorted _ Hprints) as (order & [rands draws'] & Hsort & Horder).
  assert (Hkeep : remove_host_prints [newer; older] (load_all_prints w) = [newer; older]).
  { apply remove_host_prints_none. eapply Forall_impl; [exact Hhost|].
    intros host [Ho Hn]. cbn [g_ptr_array_find]. by rewrite Hn, Ho. }
  unfold try_delete_print, fp_device_list_prints_sync. munfold.
  rewrite Hlist, Hsort. wsimpl. rewrite Horder, Hkeep.
  unfold fp_device_delete_print_sync. munfold. wsimpl. rewrite Hdelete.
  eexists. split; [reflexivity|]. by wsimpl.
Qed.
End GarbageCollect.

Section GarbageCollectExample.
#[local] Existing Instance table_libfprint.

Lemma try_delete_print_deletes_newest_witness :
  ∃ w', try_delete_print carol_on_device = Ok true w'
        ∧ out w' = [Call_delete_print new_print]
        ∧ device_prints (driver w') = [old_print].
Proof.
  destruct (try_delete_print_deletes_newest carol_on_device old_print new_print)
    as (w' & Hrun & Hout & Hleft);
    [reflexivity|by left|vm_compute; discriminate|reflexivity|reflexivity| |reflexivity|].
  { apply (bool_decide_unpack _). by vm_compute. }
  exists w'. split; [exact Hrun|]. split; [exact Hout|]. rewrite Hleft.
  by vm_compute.
Defined.
End GarbageCollectExample.
